(** * h.streamer.messages: fan-out of realtime events to websocket clients

    A shallow embedding of [src/h/streamer/messages.py]: the consumer that
    feeds the streamer's work queue, the topic dispatcher, the two topic
    handlers and the per-socket functions that decide whether, and what, a
    socket is sent.

    Python values are modelled by a JSON-like [value] type whose dicts are
    finite maps; a Python exception is the [Raise] outcome of a [result];
    the handlers' effects (database look-ups and [send_json] calls) are
    recorded, in program order, in a trace. *)

From stdpp Require Import gmap strings list fin_maps.

Set Warnings "-register-all".
Open Scope string_scope.

(** ** Python values *)

Inductive value :=
| VNone
| VBool (b : bool)
| VInt (n : Z)
| VStr (s : string)
| VList (l : list value)
| VDict (d : gmap string value).

(** The exceptions the module raises, directly or through a dict or
    attribute access; [Exception] stands for any other error a collaborator
    may raise. *)
Inductive exn :=
| KeyError (key : string)
| AttributeError (attr : string)
| RuntimeError (msg : string)
| Full
| Exception (msg : string).

Inductive result (A : Type) :=
| Return (a : A)
| Raise (e : exn).
Arguments Return {A} a.
Arguments Raise {A} e.

#[export] Instance result_ret : MRet result := @Return.
#[export] Instance result_bind : MBind result := λ A B f m,
  match m with
  | Return a => f a
  | Raise e => Raise e
  end.
#[export] Instance result_fmap : FMap result := λ A B f m,
  match m with
  | Return a => Return (f a)
  | Raise e => Raise e
  end.

(** [d[k]]: a missing key raises [KeyError]. *)
Definition getitem (d : gmap string value) (k : string) : result value :=
  match d !! k with
  | Some v => Return v
  | None => Raise (KeyError k)
  end.

(** [d.get(k, dflt)] on a dict. *)
Definition dict_get (d : gmap string value) (k : string) (dflt : value) : value :=
  default dflt (d !! k).

(** [v.get(k, dflt)] on an arbitrary value: only a dict has the method, so
    [None], a string or a list raise [AttributeError]. *)
Definition attr_get (v : value) (k : string) (dflt : value) : result value :=
  match v with
  | VDict d => Return (dict_get d k dflt)
  | _ => Raise (AttributeError "get")
  end.

(** [v == s] for a string [s]: equal only to that very string. *)
Definition py_eq_str (v : value) (s : string) : bool :=
  match v with
  | VStr s' => bool_decide (s' = s)
  | _ => false
  end.

(** [o == v] for a nullable string [o]: [None] is equal to [None] only, a
    string to that very string only. *)
Definition py_eq_optstr (o : option string) (v : value) : bool :=
  match o, v with
  | None, VNone => true
  | Some s, VStr s' => bool_decide (s = s')
  | _, _ => false
  end.

(** An incoming message from a subscribed realtime consumer. *)
Record Message := {
  topic : string;
  payload : gmap string value;
}.

(** ** Sockets *)

(** The filter a client installs: [filter.match(serialized, action)]. *)
Record Filter := { filter_match : value → value → bool }.

(** The Pyramid registry a socket refers to; only its settings are read. *)
Record Registry := { settings : gmap string value }.

(** Modelled from the spec: the attributes of a Connection (the class
    [h.streamer.websocket.WebSocket] is not part of the sources): the
    client-chosen [client_id], the nullable [authenticated_userid], the
    nullable [filter], the [effective_principals] and the [registry]. *)
Module WebSocket.
Record t := {
  client_id : string;
  authenticated_userid : option string;
  filter : option Filter;
  effective_principals : list string;
  registry : Registry;
}.
End WebSocket.

(** [LinksService(base_url, registry)]. *)
Record LinksService := {
  base_url : value;
  links_registry : Registry;
}.

(** ** External collaborators

    The store, the serializer, the shadow-ban ("nipsa") service and the
    principal translation are imported by the module and specified only at
    their interface.  [translate_annotation_principals] may raise. *)
Class Collaborators := {
  Session : Type;
  Annotation : Type;
  annotation_userid : Annotation → string;
  fetch_annotation : Session → value → option Annotation;
  is_flagged : Session → value → bool;
  asdict : Annotation → LinksService → gmap string value;
  translate_annotation_principals : value → result (list string);
}.

(** ** Effects of the handlers

    What a handler does besides computing: it asks the store for the
    annotation, asks the nipsa service whether a user is flagged, and sends
    replies down sockets.  A run is the list of these events in program
    order together with its outcome; an exception ends the run and keeps
    the events that came before it. *)
Inductive event :=
| EvFetch (id_ : value)
| EvIsFlagged (userid : value)
| EvSendJson (socket : WebSocket.t) (reply : gmap string value).

Definition M (A : Type) : Type := list event * result A.

#[export] Instance M_ret : MRet M := λ A a, ([], Return a).
#[export] Instance M_bind : MBind M := λ A B f m,
  match m.2 with
  | Return a => ((m.1 ++ (f a).1)%list, (f a).2)
  | Raise e => (m.1, Raise e)
  end.

(** A computation that has no effect of its own. *)
Definition lift {A} (r : result A) : M A := ([], r).

(** Emit one event and return [a]. *)
Definition emit {A} (ev : event) (a : A) : M A := ([ev], Return a).

(** [for x in xs: body(x)]. *)
Fixpoint for_each {A} (xs : list A) (body : A → M unit) : M unit :=
  match xs with
  | [] => mret ()
  | x :: xs' => body x ≫= λ _, for_each xs' body
  end.

Definition send_json (socket : WebSocket.t) (reply : gmap string value) : M unit :=
  emit (EvSendJson socket reply) ().

Section messages.
Context {C : Collaborators}.

(** ** Per-socket decisions *)

Definition _authorized_to_read (effective_principals : list string)
    (permissions : value) : result bool :=
  read_permissions ← attr_get permissions "read" (VList []);
  read_principals ← translate_annotation_principals read_permissions;
  if decide ((list_to_set read_principals : gset string)
               ∩ list_to_set effective_principals = ∅)
  then Return false
  else Return true.

Definition _generate_annotation_event (message : gmap string value)
    (socket : WebSocket.t) (annotation : option Annotation)
    (user_nipsad : bool) : result (option (gmap string value)) :=
  action ← getitem message "action";
  if py_eq_str action "read" then Return None else
  src_client_id ← getitem message "src_client_id";
  if py_eq_str src_client_id (WebSocket.client_id socket) then Return None else
  match WebSocket.filter socket with
  | None => Return None
  | Some socket_filter =>
    let notification : gmap string value :=
      {[ "type" := VStr "annotation-notification";
         "options" := VDict {[ "action" := action ]} ]} in
    id_ ← getitem message "annotation_id";
    resolved ←
      (if py_eq_str action "delete"
       then Some <$> getitem message "annotation_dict"
       else match annotation with
            | None => Return None
            | Some a =>
              let base_url :=
                dict_get (settings (WebSocket.registry socket))
                         "h.app_url" (VStr "http://localhost:5000") in
              let links_service :=
                {| base_url := base_url;
                   links_registry := WebSocket.registry socket |} in
              Return (Some (VDict (asdict a links_service)))
            end);
    match resolved with
    | None => Return None
    | Some serialized =>
      userid ← attr_get serialized "user" VNone;
      if user_nipsad
         && negb (py_eq_optstr (WebSocket.authenticated_userid socket) userid)
      then Return None else
      permissions ← attr_get serialized "permissions" VNone;
      authorized ←
        _authorized_to_read (WebSocket.effective_principals socket) permissions;
      if negb authorized then Return None else
      if negb (filter_match socket_filter serialized action)
      then Return None else
      let notification := <["payload" := VList [serialized]]> notification in
      let notification :=
        if py_eq_str action "delete"
        then <["payload" := VList [VDict {[ "id" := id_ ]}]]> notification
        else notification in
      Return (Some notification)
    end
  end.

Definition _generate_user_event (message : gmap string value)
    (socket : WebSocket.t) : result (option (gmap string value)) :=
  userid ← getitem message "userid";
  if negb (py_eq_optstr (WebSocket.authenticated_userid socket) userid)
  then Return None else
  type ← getitem message "type";
  session_model ← getitem message "session_model";
  Return (Some {[ "type" := VStr "session-change";
                  "action" := type;
                  "model" := session_model ]}).

(** ** Topic handlers *)

Definition handle_annotation_event (message : gmap string value)
    (sockets : list WebSocket.t) (session : Session) : M unit :=
  id_ ← lift (getitem message "annotation_id");
  annotation ← emit (EvFetch id_) (fetch_annotation session id_);
  userid ← lift
    (match annotation with
     | Some a => Return (VStr (annotation_userid a))
     | None => attr_get (dict_get message "annotation_dict" (VDict ∅)) "user" VNone
     end);
  user_nipsad ← emit (EvIsFlagged userid) (is_flagged session userid);
  for_each sockets (λ socket,
    reply ← lift (_generate_annotation_event message socket annotation user_nipsad);
    match reply with
    | None => mret ()
    | Some reply => send_json socket reply
    end).

Definition handle_user_event (message : gmap string value)
    (sockets : list WebSocket.t) (_ : Session) : M unit :=
  for_each sockets (λ socket,
    reply ← lift (_generate_user_event message socket);
    match reply with
    | None => mret ()
    | Some reply => send_json socket reply
    end).

(** ** The dispatcher

    [instances] is the content of the registry [WebSocket.instances] when
    the message is handled; [list(...)] takes the snapshot the handler
    iterates over.  A topic handler is called as
    [handler(payload, sockets, session)]. *)
Definition handle_message (instances : list WebSocket.t) (message : Message)
    (session : Session)
    (topic_handlers :
       gmap string (gmap string value → list WebSocket.t → Session → M unit))
    : M unit :=
  handler ← lift
    (match topic_handlers !! topic message with
     | Some handler => Return handler
     | None => Raise (RuntimeError
                 ("Don't know how to handle message from topic: " ++ topic message))
     end);
  let sockets := instances in
  handler (payload message) sockets session.

(** ** Notions the properties are stated with *)

(** The [LinksService] built for a socket. *)
Definition links_service_of (socket : WebSocket.t) : LinksService :=
  {| base_url := dict_get (settings (WebSocket.registry socket))
                          "h.app_url" (VStr "http://localhost:5000");
     links_registry := WebSocket.registry socket |}.

(** The serialized document of an event for a socket: the snapshot
    [annotation_dict] of a delete event, the freshly presented annotation
    otherwise. *)
Inductive serialized_for (message : gmap string value) (socket : WebSocket.t)
    (annotation : option Annotation) : value → Prop :=
| serialized_snapshot action serialized :
    message !! "action" = Some action →
    py_eq_str action "delete" = true →
    message !! "annotation_dict" = Some serialized →
    serialized_for message socket annotation serialized
| serialized_live action a :
    message !! "action" = Some action →
    py_eq_str action "delete" = false →
    annotation = Some a →
    serialized_for message socket annotation
      (VDict (asdict a (links_service_of socket))).

(** The translated read principals of a serialized document's permissions,
    as [_generate_annotation_event] and [_authorized_to_read] compute them. *)
Definition read_principals_of (serialized : value) : result (list string) :=
  permissions ← attr_get serialized "permissions" VNone;
  read_permissions ← attr_get permissions "read" (VList []);
  translate_annotation_principals read_permissions.

(** Two lists of principals intersect. *)
Definition intersect (ps qs : list string) : Prop := ∃ p, p ∈ ps ∧ p ∈ qs.

#[export] Instance intersect_dec ps qs : Decision (intersect ps qs).
Proof.
  refine (cast_if (decide (Exists (λ p, p ∈ qs) ps)));
    unfold intersect; by rewrite <- Exists_exists.
Defined.

(** The userid [handle_annotation_event] resolves for the nipsa look-up. *)
Definition resolved_userid (message : gmap string value)
    (annotation : option Annotation) : result value :=
  match annotation with
  | Some a => Return (VStr (annotation_userid a))
  | None => attr_get (dict_get message "annotation_dict" (VDict ∅)) "user" VNone
  end.

(** The loop both handlers run: one reply per socket, sent unless [None]. *)
Definition fan_out (generate : WebSocket.t → result (option (gmap string value)))
    (sockets : list WebSocket.t) : M unit :=
  for_each sockets (λ socket,
    reply ← lift (generate socket);
    match reply with
    | None => mret ()
    | Some reply => send_json socket reply
    end).

(** A socket passes every gate of the delivery pipeline for an event; the
    indices are the event's action and annotation id and the serialized
    document. *)
Inductive passes_gates (message : gmap string value) (socket : WebSocket.t)
    (annotation : option Annotation) (user_nipsad : bool)
    : value → value → value → Prop :=
| Passes action src_client_id socket_filter id_ serialized userid read_principals :
    message !! "action" = Some action →
    py_eq_str action "read" = false →
    message !! "src_client_id" = Some src_client_id →
    py_eq_str src_client_id (WebSocket.client_id socket) = false →
    WebSocket.filter socket = Some socket_filter →
    message !! "annotation_id" = Some id_ →
    serialized_for message socket annotation serialized →
    attr_get serialized "user" VNone = Return userid →
    (user_nipsad = true →
     py_eq_optstr (WebSocket.authenticated_userid socket) userid = true) →
    read_principals_of serialized = Return read_principals →
    intersect read_principals (WebSocket.effective_principals socket) →
    filter_match socket_filter serialized action = true →
    passes_gates message socket annotation user_nipsad action id_ serialized.

(** A socket passes the gates that come before the authorization gate: the
    event is not a read, it does not come from the socket's own client, a
    filter is installed, the event names its annotation, and the nipsa gate
    does not suppress. *)
Definition passes_earlier_gates (message : gmap string value)
    (socket : WebSocket.t) (user_nipsad : bool) (serialized : value) : Prop :=
  ∃ action src_client_id socket_filter id_,
    message !! "action" = Some action
    ∧ py_eq_str action "read" = false
    ∧ message !! "src_client_id" = Some src_client_id
    ∧ py_eq_str src_client_id (WebSocket.client_id socket) = false
    ∧ WebSocket.filter socket = Some socket_filter
    ∧ message !! "annotation_id" = Some id_
    ∧ (∀ userid, user_nipsad = true →
         attr_get serialized "user" VNone = Return userid →
         py_eq_optstr (WebSocket.authenticated_userid socket) userid = true).

(** The socket with another filter (or none) installed. *)
Definition with_filter (flt : option Filter) (socket : WebSocket.t) : WebSocket.t :=
  {| WebSocket.client_id := WebSocket.client_id socket;
     WebSocket.authenticated_userid := WebSocket.authenticated_userid socket;
     WebSocket.filter := flt;
     WebSocket.effective_principals := WebSocket.effective_principals socket;
     WebSocket.registry := WebSocket.registry socket |}.

(** The nipsa look-ups of a run. *)
Definition nipsa_lookups (trace : list event) : list value :=
  omap (λ ev, match ev with EvIsFlagged u => Some u | _ => None end) trace.

(** The Python value of a nullable identity. *)
Definition identity_value (o : option string) : value :=
  match o with
  | None => VNone
  | Some s => VStr s
  end.

(** The notification an annotation event is shaped to. *)
Definition annotation_notification (action : value) (payload : value)
    : gmap string value :=
  {[ "type" := VStr "annotation-notification";
     "options" := VDict {[ "action" := action ]};
     "payload" := VList [payload] ]}.

(** The message a user event is shaped to. *)
Definition session_change (type session_model : value) : gmap string value :=
  {[ "type" := VStr "session-change";
     "action" := type;
     "model" := session_model ]}.

End messages.

(** ** The realtime consumer *)

(** Modelled from the spec: the work queue handed to [process_messages] (a
    [gevent.queue.Queue], not part of the sources) is a bounded FIFO queue;
    [put] with a timeout raises [Full] when the queue is saturated and
    stays so for the whole timeout, and appends the message otherwise. *)
Record Queue := {
  maxsize : option nat;
  items : list Message;
}.

Definition put (q : Queue) (message : Message) : result Queue :=
  match maxsize q with
  | Some n =>
    if decide (n ≤ length (items q))%nat
    then Raise Full
    else Return {| maxsize := maxsize q; items := (items q ++ [message])%list |}
  | None => Return {| maxsize := maxsize q; items := (items q ++ [message])%list |}
  end.

(** What [process_messages] acts on: the work queue and the log. *)
Record process := {
  work_queue : Queue;
  warnings : list string;
}.

(** Modelled from the spec: how the bus behaves during a run of the
    consumer that ends ([h.realtime.Consumer] is not part of the sources):
    it delivers the payloads [inbound] one after the other, then the
    subscription terminates, normally ([Return ()]) or with an error. *)
Record Bus := {
  inbound : list (gmap string value);
  quits : result ();
}.

(** Modelled from the spec: [consumer.run()] invokes the handler
    synchronously for each inbound payload, then ends as the bus does. *)
Fixpoint Consumer_run (handler : gmap string value → process → process * result ())
    (inbound : list (gmap string value)) (quits : result ())
    (w : process) : process * result () :=
  match inbound with
  | [] => (w, quits)
  | payload :: inbound' =>
    match handler payload w with
    | (w', Return _) => Consumer_run handler inbound' quits w'
    | (w', Raise e) => (w', Raise e)
    end
  end.

(** The closure [_handler] of [process_messages]. *)
Definition _handler (routing_key : string) (payload : gmap string value)
    (w : process) : process * result () :=
  let message := {| topic := routing_key; payload := payload |} in
  match put (work_queue w) message with
  | Return q => ({| work_queue := q; warnings := warnings w |}, Return ())
  | Raise Full =>
    ({| work_queue := work_queue w;
        warnings := (warnings w ++
          ["Streamer work queue full! Unable to queue message from h.realtime having waited 0.1s: giving up."])%list |},
     Return ())
  | Raise e => (w, Raise e)
  end.

(** [process_messages(settings, routing_key, work_queue, raise_error=True)];
    the connection, sentry and statsd clients built from [settings] only
    parameterise the consumer. *)
Definition process_messages (bus : Bus) (settings : gmap string value)
    (routing_key : string) (w : process) (raise_error : bool)
    : process * result () :=
  match Consumer_run (_handler routing_key) (inbound bus) (quits bus) w with
  | (w', Return _) =>
    if raise_error
    then (w', Raise (RuntimeError "Realtime consumer quit unexpectedly!"))
    else (w', Return ())
  | (w', Raise e) => (w', Raise e)
  end.


(** ** A concrete deployment

    A small store, nipsa list, presenter and principal translation, and the
    events and sockets of the scenarios the properties are tried on. *)
Module Demo.

Record stored := {
  author : string;
  document : gmap string value;
}.

Record db := {
  annotations : gmap string stored;
  nipsa : gset string;
}.

Definition translate_principal (p : string) : string :=
  if decide (p = "group:__world__") then "system.Everyone"
  else if decide (p = "group:__authenticated__") then "system.Authenticated"
  else p.

Fixpoint translate_list (l : list value) : result (list string) :=
  match l with
  | [] => Return []
  | VStr p :: l' => (λ ps, translate_principal p :: ps) <$> translate_list l'
  | _ :: _ => Raise (AttributeError "startswith")
  end.

Definition translate (read_permissions : value) : result (list string) :=
  match read_permissions with
  | VList l => translate_list l
  | _ => Raise (Exception "read permissions are not a list")
  end.

Definition collaborators : Collaborators := {|
  Session := db;
  Annotation := stored;
  annotation_userid := author;
  fetch_annotation session id_ :=
    match id_ with
    | VStr i => annotations session !! i
    | _ => None
    end;
  is_flagged session userid :=
    match userid with
    | VStr u => bool_decide (u ∈ nipsa session)
    | _ => false
    end;
  asdict a links :=
    <["links" := VDict {[ "html" := base_url links ]}]>
      (<["user" := VStr (author a)]> (document a));
  translate_annotation_principals := translate;
|}.

Definition accept_all : Filter := {| filter_match := λ _ _, true |}.

Definition socket (client_id : string) (userid : option string)
    (flt : option Filter) (principals : list string) : WebSocket.t :=
  {| WebSocket.client_id := client_id;
     WebSocket.authenticated_userid := userid;
     WebSocket.filter := flt;
     WebSocket.effective_principals := principals;
     WebSocket.registry := {| settings := ∅ |} |}.

(** The sockets of the scenarios: a member of the public group, the
    originating client, a member of a private group only, a client without
    a filter, the author, and an unauthenticated client. *)
Definition C1 := socket "C1" (Some "U2") (Some accept_all) ["group:public"].
Definition C9 := socket "C9" (Some "U3") (Some accept_all) ["group:public"].
Definition C2 := socket "C2" (Some "U4") (Some accept_all) ["group:private-x"].
Definition C3 := socket "C3" (Some "U5") None ["group:public"].
Definition C4 := socket "C4" (Some "U1") (Some accept_all) ["group:public"].
Definition C5 := socket "C5" None (Some accept_all) ["group:public"].

Definition public_permissions : value :=
  VDict {[ "read" := VList [VStr "group:public"] ]}.

(** Annotation [A1], authored by [U1] and readable by the public group;
    [A2] whose stored document has no permissions entry. *)
Definition A1 : stored :=
  {| author := "U1";
     document := {[ "id" := VStr "A1"; "permissions" := public_permissions ]} |}.
Definition A2 : stored :=
  {| author := "U1"; document := {[ "id" := VStr "A2" ]} |}.

Definition session : db :=
  {| annotations := {[ "A1" := A1; "A2" := A2 ]}; nipsa := ∅ |}.
Definition session_nipsa : db :=
  {| annotations := {[ "A1" := A1; "A2" := A2 ]}; nipsa := {[ "U1" ]} |}.

Definition annotation_event (action id_ : string) : gmap string value :=
  {[ "action" := VStr action;
     "annotation_id" := VStr id_;
     "src_client_id" := VStr "C9" ]}.

Definition create_A1 := annotation_event "create" "A1".
Definition create_A2 := annotation_event "create" "A2".

(** The snapshot a delete event of [A1] carries. *)
Definition A1_dict : gmap string value :=
  {[ "id" := VStr "A1"; "user" := VStr "U1"; "text" := VStr "hello";
     "permissions" := public_permissions ]}.
Definition delete_A1 : gmap string value :=
  <["annotation_dict" := VDict A1_dict]> (annotation_event "delete" "A1").

(** The session after [A1] has been deleted. *)
Definition session_deleted : db :=
  {| annotations := {[ "A2" := A2 ]}; nipsa := ∅ |}.

Definition user_event (userid : value) : gmap string value :=
  {[ "type" := VStr "session-change";
     "userid" := userid;
     "session_model" := VDict {[ "groups" := VList [] ]} ]}.

(** The payload [h.groups.views._send_group_notification] publishes on the
    [user] topic: it has no [session_model]. *)
Definition group_notification : gmap string value :=
  {[ "type" := VStr "group-join";
     "userid" := VStr "U1";
     "group" := VStr "hashid" ]}.

(** The static topic-to-handler mapping of the streamer. *)
Definition topic_handlers
    : gmap string (gmap string value → list WebSocket.t → db → M unit) :=
  {[ "annotation" := handle_annotation_event (C:=collaborators);
     "user" := handle_user_event (C:=collaborators) ]}.

(** A work queue with room for two messages, and a bus that delivers three
    payloads and then ends the subscription normally. *)
Definition idle : process :=
  {| work_queue := {| maxsize := Some 2; items := [] |}; warnings := [] |}.
Definition bus : Bus :=
  {| inbound := [create_A1; create_A2; delete_A1]; quits := Return () |}.

(** A client whose filter matches nothing, and a bus whose subscription
    ends with an error. *)
Definition reject_all : Filter := {| filter_match := λ _ _, false |}.
Definition C6 := socket "C6" (Some "U6") (Some reject_all) ["group:public"].
Definition broken_bus : Bus :=
  {| inbound := [create_A1]; quits := Raise (Exception "connection lost") |}.

End Demo.

(** * h.groups.views: creating, reading, joining and leaving groups

    A shallow embedding of [src/h/groups/views.py].  A view takes the
    request and the state it acts on (the groups of the database and the
    event queue) and returns the new state and either the response or the
    exception it raises. *)
Module views.

Inductive exn :=
| HTTPNotFound
| KeyError (key : string)
| AttributeError (attr : string)
| ValueError (msg : string).

Inductive raised (A : Type) :=
| Returns (a : A)
| Raises (e : exn).
Arguments Returns {A} a.
Arguments Raises {A} e.

(** [request.route_url(route_name, hashid=..., slug=...)]. *)
Record url := route_url {
  route_name : string;
  url_hashid : string;
  url_slug : string;
}.

Record Button := {
  title : string;
  button_css_class : string;
}.

Section views.

(** The users of [h.models]; the views only look them up and compare
    them. *)
Context (User : Type) `{EqDecision User}.

(** A group as the views use it.  [members] is the list the views append
    to, remove from and test membership in; a looked-up user may be
    [None]. *)
Record Group := {
  hashid : string;
  slug : string;
  members : list (option User);
}.

#[global] Instance Group_eq_dec : EqDecision Group.
Proof. solve_decision. Defined.

(** What the views read of a request. *)
Record Request := {
  feature : string → bool;
  authenticated_userid : option string;
  domain : string;
  matchdict : gmap string string;
  POST : list (string * string);
}.

(** [deform.Form(schema, css_class=..., buttons=...)], with the schema
    bound to the request. *)
Record Form := {
  schema_request : Request;
  css_class : string;
  buttons : list Button;
}.

(** The state the views act on: the groups by the hashid they are looked
    up with, and the messages published on the event queue, oldest
    first. *)
Record World := {
  groups : gmap string Group;
  queue : list (string * gmap string value);
}.

Inductive template_value :=
| TGroup (group : Group)
| TUrl (u : url)
| TBool (b : bool).

Inductive response :=
| FormPage (form : string)
| Rendered (renderer_name : string) (value : gmap string template_value)
| HTTPSeeOther (location : url)
| HTTPMovedPermanently (location : url)
| HTTPNoContent.

(** The parts of [h.models] and [deform] the views call: the user look-up,
    the groups of a user ([user.groups]), the form's rendering and
    validation ([None] for a [ValidationFailure]), and the creation of a
    group (the constructor, the addition to the session and the flush),
    which yields the hashid the group is found under and the group. *)
Context (get_by_userid : string → string → option User).
Context (user_groups : gmap string Group → User → list Group).
Context (form_render : Form → string).
Context (form_validate : Form → list (string * string) → option (gmap string string)).
Context (Group_create : gmap string Group → string → option User → string * Group).

Definition V (A : Type) : Type := World → World * raised A.

#[export] Instance V_ret : MRet V := λ A a w, (w, Returns a).
#[export] Instance V_bind : MBind V := λ A B f m w,
  match m w with
  | (w', Returns a) => f a w'
  | (w', Raises e) => (w', Raises e)
  end.

Definition raise {A} (e : exn) : V A := λ w, (w, Raises e).

(** [queue.publish(topic, data)]. *)
Definition publish (topic : string) (data : gmap string value) : V () :=
  λ w, ({| groups := groups w; queue := (queue w ++ [(topic, data)])%list |},
        Returns ()).

(** [models.Group.get_by_hashid(hashid)]. *)
Definition get_by_hashid (hashid : string) : V (option Group) :=
  λ w, (w, Returns (groups w !! hashid)).

(** The group found under [key] gets new members: the effect of a change
    to [group.members] on the session. *)
Definition set_members (key : string) (group : Group)
    (members : list (option User)) : V () :=
  λ w, ({| groups := <[key := {| hashid := hashid group; slug := slug group;
                                 members := members |}]> (groups w);
           queue := queue w |},
        Returns ()).

(** [models.Group(name=..., creator=...)], [request.db.add(group)] and
    [request.db.flush()]: the group is in the session, with its hashid. *)
Definition add_group (name : string) (creator : option User) : V Group :=
  λ w, let '(key, group) := Group_create (groups w) name creator in
       ({| groups := <[key := group]> (groups w); queue := queue w |},
        Returns group).

(** [l.remove(x)]: the first occurrence goes; [None] for [ValueError]. *)
Fixpoint list_remove (x : option User) (l : list (option User))
    : option (list (option User)) :=
  match l with
  | [] => None
  | y :: l' => if decide (y = x) then Some l' else (y ::.) <$> list_remove x l'
  end.

(** The nullable identity as a Python value. *)
Definition userid_value (o : option string) : value :=
  match o with
  | None => VNone
  | Some s => VStr s
  end.

Definition _group_form (request : Request) : Form :=
  {| schema_request := request;
     css_class := "group-form__form";
     buttons :=
       [{| title := "Create a new group";
           button_css_class :=
             "primary-action-btn group-form__submit-btn js-create-group-create-btn" |}] |}.

Definition create_form (request : Request) : V response :=
  if negb (feature request "groups") then raise HTTPNotFound else
  match authenticated_userid request with
  | None => raise HTTPNotFound
  | Some _ =>
    let form := _group_form request in
    mret (FormPage (form_render form))
  end.

Definition _send_group_notification (request : Request) (event_type : string)
    (hashid : string) : V () :=
  let data : gmap string value :=
    {[ "type" := VStr event_type;
       "userid" := userid_value (authenticated_userid request);
       "group" := VStr hashid ]} in
  publish "user" data.

Definition create (request : Request) : V response :=
  if negb (feature request "groups") then raise HTTPNotFound else
  match authenticated_userid request with
  | None => raise HTTPNotFound
  | Some userid =>
    let form := _group_form request in
    match form_validate form (POST request) with
    | None => mret (FormPage (form_render form))
    | Some appstruct =>
      let user := get_by_userid (domain request) userid in
      match appstruct !! "name" with
      | None => raise (KeyError "name")
      | Some name =>
        group ← add_group name user;
        _ ← _send_group_notification request "group-join" (hashid group);
        let url := route_url "group_read" (hashid group) (slug group) in
        mret (HTTPSeeOther url)
      end
    end
  end.

Definition _login_to_join (request : Request) (group : Group) : response :=
  let template_data : gmap string template_value :=
    {[ "group" := TGroup group ]} in
  Rendered "h:groups/templates/join.html.jinja2" template_data.

Definition _read_group (request : Request) (group : Group) : response :=
  let url := route_url "group_read" (hashid group) (slug group) in
  let template_data : gmap string template_value :=
    {[ "group" := TGroup group; "group_url" := TUrl url ]} in
  Rendered "h:groups/templates/share.html.jinja2" template_data.

Definition _join (request : Request) (group : Group) : response :=
  let url := route_url "group_read" (hashid group) (slug group) in
  let template_data : gmap string template_value :=
    {[ "group" := TGroup group; "join_url" := TUrl url;
       "is_logged_in" := TBool true ]} in
  Rendered "h:groups/templates/join.html.jinja2" template_data.

(** The truth value of [request.authenticated_userid]: [None] and the
    empty string are false; otherwise the userid is at hand. *)
Definition logged_in (o : option string) : option string :=
  match o with
  | None => None
  | Some s => if bool_decide (s = "") then None else Some s
  end.

(** [group in user.groups]; [None] has no attribute [groups]. *)
Definition in_user_groups (group : Group) (user : option User) : V bool :=
  match user with
  | None => raise (AttributeError "groups")
  | Some user => λ w, (w, Returns (bool_decide (group ∈ user_groups (groups w) user)))
  end.

Definition read (request : Request) : V response :=
  if negb (feature request "groups") then raise HTTPNotFound else
  match matchdict request !! "hashid" with
  | None => raise (KeyError "hashid")
  | Some hashid_ =>
    let slug_ := matchdict request !! "slug" in
    group ← get_by_hashid hashid_;
    match group with
    | None => raise HTTPNotFound
    | Some group =>
      if match slug_ with
         | None => true
         | Some slug_ => bool_decide (slug_ ≠ slug group)
         end
      then
        let url := route_url "group_read" (hashid group) (slug group) in
        mret (HTTPMovedPermanently url)
      else
        match logged_in (authenticated_userid request) with
        | None => mret (_login_to_join request group)
        | Some userid =>
          let user := get_by_userid (domain request) userid in
          is_member ← in_user_groups group user;
          if is_member : bool
          then mret (_read_group request group)
          else mret (_join request group)
        end
    end
  end.

Definition join (request : Request) : V response :=
  if negb (feature request "groups") then raise HTTPNotFound else
  match authenticated_userid request with
  | None => raise HTTPNotFound
  | Some userid =>
    match matchdict request !! "hashid" with
    | None => raise (KeyError "hashid")
    | Some hashid_ =>
      group ← get_by_hashid hashid_;
      match group with
      | None => raise HTTPNotFound
      | Some group =>
        let user := get_by_userid (domain request) userid in
        _ ← set_members hashid_ group (members group ++ [user]);
        _ ← _send_group_notification request "group-join" (hashid group);
        let url := route_url "group_read" (hashid group) (slug group) in
        mret (HTTPSeeOther url)
      end
    end
  end.

Definition leave (request : Request) : V response :=
  if negb (feature request "groups") then raise HTTPNotFound else
  match authenticated_userid request with
  | None => raise HTTPNotFound
  | Some userid =>
    match matchdict request !! "hashid" with
    | None => raise (KeyError "hashid")
    | Some hashid_ =>
      group ← get_by_hashid hashid_;
      match group with
      | None => raise HTTPNotFound
      | Some group =>
        let user := get_by_userid (domain request) userid in
        if bool_decide (user ∉ members group) then raise HTTPNotFound else
        match list_remove user (members group) with
        | None => raise (ValueError "list.remove(x): x not in list")
        | Some members' =>
          _ ← set_members hashid_ group members';
          _ ← _send_group_notification request "group-leave" (hashid group);
          mret HTTPNoContent
        end
      end
    end
  end.

End views.

Arguments hashid {User} _.
Arguments slug {User} _.
Arguments members {User} _.
Arguments Build_Group {User} _ _ _.
Arguments groups {User} _.
Arguments queue {User} _.
Arguments Build_World {User} _ _.
Arguments TGroup {User} _.
Arguments TUrl {User} _.
Arguments TBool {User} _.
Arguments FormPage {User} _.
Arguments Rendered {User} _ _.
Arguments HTTPSeeOther {User} _.
Arguments HTTPMovedPermanently {User} _.
Arguments HTTPNoContent {User}.
Arguments list_remove {User _} _ _.
Arguments publish {User} _ _ _.
Arguments set_members {User} _ _ _ _.
Arguments create_form {User} _ _ _.
Arguments _send_group_notification {User} _ _ _ _.
Arguments create {User} _ _ _ _ _ _.
Arguments _login_to_join {User} _ _.
Arguments _read_group {User} _ _.
Arguments _join {User} _ _.
Arguments read {User _} _ _ _ _.
Arguments join {User} _ _ _.
Arguments leave {User _} _ _ _.

End views.

(** ** A concrete group service *)
Module GroupsDemo.

(** Users are their userids; only [U1] and [U2] are registered. *)
Definition get_by_userid (domain userid : string) : option string :=
  if bool_decide (userid ∈ ["U1"; "U2"]) then Some userid else None.

(** The groups of a user: those that list the user as a member. *)
Definition user_groups (groups : gmap string (views.Group string))
    (user : string) : list (views.Group string) :=
  filter (λ group, Some user ∈ views.members group) (map_to_list groups).*2.

Definition form_render (form : views.Form) : string := "<form>".

Definition form_validate (form : views.Form) (post : list (string * string))
    : option (gmap string string) :=
  match post with
  | [("name", name)] =>
    if bool_decide (name = "") then None else Some {[ "name" := name ]}
  | _ => None
  end.

Definition Group_create (groups : gmap string (views.Group string))
    (name : string) (creator : option string)
    : string * views.Group string :=
  ("h-" ++ name,
   {| views.hashid := "h-" ++ name; views.slug := name;
      views.members := [creator] |}).

Definition request (groups_on : bool) (userid : option string)
    (matchdict : gmap string string) (post : list (string * string))
    : views.Request :=
  {| views.feature := λ name, groups_on && bool_decide (name = "groups");
     views.authenticated_userid := userid;
     views.domain := "example.com";
     views.matchdict := matchdict;
     views.POST := post |}.

(** A group [U2] has created, and the page of the group. *)
Definition readers : views.Group string :=
  {| views.hashid := "h-readers"; views.slug := "readers";
     views.members := [Some "U2"] |}.
Definition world : views.World string :=
  {| views.groups := {[ "h-readers" := readers ]}; views.queue := [] |}.
Definition page : gmap string string :=
  {[ "hashid" := "h-readers"; "slug" := "readers" ]}.

End GroupsDemo.

(** ** Further notions *)

(** The sends of a loop over [sockets] in which no socket raises: one per
    socket that is answered a reply, in the order of the snapshot. *)
Definition replies (generate : WebSocket.t → result (option (gmap string value)))
    (sockets : list WebSocket.t) : list event :=
  omap (λ socket,
          match generate socket with
          | Return (Some reply) => Some (EvSendJson socket reply)
          | _ => None
          end) sockets.

(** The sends of a run. *)
Definition sends (trace : list event) : list (WebSocket.t * gmap string value) :=
  omap (λ ev, match ev with EvSendJson s r => Some (s, r) | _ => None end) trace.

(** The warning [_handler] logs for a message it drops. *)
Definition queue_full_warning : string :=
  "Streamer work queue full! Unable to queue message from h.realtime having waited 0.1s: giving up.".

(** The number of messages a queue still admits, out of [n] offered. *)
Definition room (q : Queue) (n : nat) : nat :=
  match maxsize q with
  | Some size => (size - length (items q)) `min` n
  | None => n
  end.

(** ** Scenarios *)

#[local] Existing Instance Demo.collaborators.

Example scenario_C1_delivered :
  _generate_annotation_event Demo.create_A1 Demo.C1 (Some Demo.A1) false
  = Return (Some (annotation_notification (VStr "create")
                    (VDict (asdict Demo.A1 (links_service_of Demo.C1))))).
Proof. reflexivity. Qed.

Example scenario_C9_suppressed :
  _generate_annotation_event Demo.create_A1 Demo.C9 (Some Demo.A1) false
  = Return None.
Proof. reflexivity. Qed.

Example scenario_C2_suppressed :
  _generate_annotation_event Demo.create_A1 Demo.C2 (Some Demo.A1) false
  = Return None.
Proof. reflexivity. Qed.

Example scenario_handler :
  handle_annotation_event Demo.create_A1 [Demo.C1; Demo.C9; Demo.C2; Demo.C3]
    Demo.session
  = ([EvFetch (VStr "A1"); EvIsFlagged (VStr "U1");
      EvSendJson Demo.C1 (annotation_notification (VStr "create")
                  (VDict (asdict Demo.A1 (links_service_of Demo.C1))))],
     Return ()).
Proof. reflexivity. Qed.

Example scenario_user_event :
  handle_user_event (Demo.user_event (VStr "U1")) [Demo.C1; Demo.C4; Demo.C5]
    Demo.session
  = ([EvSendJson Demo.C4 (session_change (VStr "session-change")
                            (VDict {[ "groups" := VList [] ]}))],
     Return ()).
Proof. reflexivity. Qed.


(** ** Basic facts about the Python primitives *)

#[global] Arguments dict_get : simpl never.

Lemma py_eq_optstr_true o v :
  py_eq_optstr o v = true ↔ v = identity_value o.
Proof.
  destruct o as [s|], v; simpl; rewrite ?bool_decide_eq_true;
    split; congruence.
Qed.

Lemma py_eq_optstr_false o v :
  py_eq_optstr o v = false ↔ v ≠ identity_value o.
Proof.
  rewrite <- py_eq_optstr_true. destruct (py_eq_optstr o v); split; congruence.
Qed.

Lemma getitem_Return d k v : getitem d k = Return v ↔ d !! k = Some v.
Proof. unfold getitem. destruct (d !! k); split; congruence. Qed.

Lemma getitem_Some d k v : d !! k = Some v → getitem d k = Return v.
Proof. apply getitem_Return. Qed.

Lemma intersect_inter (ps qs : list string) :
  (list_to_set ps : gset string) ∩ list_to_set qs ≠ ∅ ↔ intersect ps qs.
Proof.
  unfold intersect. split.
  - intros Hne. apply set_choose_L in Hne as [p Hp].
    exists p. set_solver.
  - intros (p & Hp & Hq). set_solver.
Qed.

Lemma bind_Return {A B} (m : result A) (f : A → result B) b :
  m ≫= f = Return b ↔ ∃ a, m = Return a ∧ f a = Return b.
Proof.
  destruct m as [a|e]; simpl; split.
  - eauto.
  - by intros (a' & [= <-] & ?).
  - done.
  - by intros (? & ? & ?).
Qed.

(** ** The loop over the sockets *)

Section fan_out.
Context (generate : WebSocket.t → result (option (gmap string value))).

Lemma fan_out_cons socket sockets :
  fan_out generate (socket :: sockets) =
  match generate socket with
  | Return None => fan_out generate sockets
  | Return (Some reply) =>
    (EvSendJson socket reply :: (fan_out generate sockets).1,
     (fan_out generate sockets).2)
  | Raise e => ([], Raise e)
  end.
Proof.
  unfold fan_out; simpl. unfold mbind, M_bind, lift; simpl.
  destruct (generate socket) as [[reply|]|e]; simpl; [done| |done].
  by destruct (for_each sockets _).
Qed.

(** Only replies are sent, each to the socket it was generated for. *)
Lemma fan_out_sound sockets ev :
  ev ∈ (fan_out generate sockets).1 →
  ∃ socket reply,
    ev = EvSendJson socket reply ∧ socket ∈ sockets
    ∧ generate socket = Return (Some reply).
Proof.
  induction sockets as [|s sockets IH]; [by intros ?%elem_of_nil|].
  rewrite fan_out_cons.
  destruct (generate s) as [[reply|]|e] eqn:Hg; simpl.
  - intros [->|Hin]%elem_of_cons.
    + exists s, reply. split_and!; [done|left|done].
    + destruct (IH Hin) as (s' & r' & -> & ? & ?).
      exists s', r'. split_and!; [done|by right|done].
  - intros Hin. destruct (IH Hin) as (s' & r' & -> & ? & ?).
    exists s', r'. split_and!; [done|by right|done].
  - by intros ?%elem_of_nil.
Qed.

(** When the loop ends normally every generated reply has been sent. *)
Lemma fan_out_complete sockets socket reply :
  (fan_out generate sockets).2 = Return () →
  socket ∈ sockets →
  generate socket = Return (Some reply) →
  EvSendJson socket reply ∈ (fan_out generate sockets).1.
Proof.
  induction sockets as [|s sockets IH]; [by intros _ ?%elem_of_nil|].
  rewrite fan_out_cons.
  destruct (generate s) as [[r|]|e] eqn:Hg; simpl.
  - intros Hret [->|Hin]%elem_of_cons Hgen.
    + rewrite Hg in Hgen. injection Hgen as ->. left.
    + right. by apply IH.
  - intros Hret [->|Hin]%elem_of_cons Hgen; [congruence|by apply IH].
  - done.
Qed.

(** An exception raised for one socket ends the loop with an exception. *)
Lemma fan_out_raises sockets socket e :
  socket ∈ sockets →
  generate socket = Raise e →
  ∃ e', (fan_out generate sockets).2 = Raise e'.
Proof.
  induction sockets as [|s sockets IH]; [by intros ?%elem_of_nil|].
  rewrite fan_out_cons.
  intros [->|Hin]%elem_of_cons Hgen.
  - rewrite Hgen. by exists e.
  - destruct (generate s) as [[r|]|e0]; simpl; eauto.
Qed.

(** When no socket raises, the replies are sent in the order of the
    snapshot and the loop ends normally. *)
Lemma fan_out_total sockets :
  (∀ socket, socket ∈ sockets → ∃ reply, generate socket = Return reply) →
  fan_out generate sockets =
  (omap (λ socket,
           match generate socket with
           | Return (Some reply) => Some (EvSendJson socket reply)
           | _ => None
           end) sockets,
   Return ()).
Proof.
  induction sockets as [|s sockets IH]; intros Hall; [done|].
  rewrite fan_out_cons. simpl.
  destruct (Hall s) as [r Hr]; [left|]. rewrite Hr.
  rewrite IH; [by destruct r|].
  intros s' Hin. apply Hall. by right.
Qed.

End fan_out.

Section pipeline.
Context {C : Collaborators}.

Implicit Types (message : gmap string value) (socket : WebSocket.t).
Implicit Types (annotation : option Annotation) (serialized : value).

(** ** The authorization gate *)

Lemma serialized_for_unique message socket annotation serialized serialized' :
  serialized_for message socket annotation serialized →
  serialized_for message socket annotation serialized' →
  serialized = serialized'.
Proof.
  intros [a d Ha Hd Hs | a ann Ha Hd Hann] [a' d' Ha' Hd' Hs' | a' ann' Ha' Hd' Hann'];
    congruence.
Qed.

(** [_authorized_to_read] on the permissions of a document answers whether
    the translated read principals intersect the effective principals, and
    fails exactly as the translation does. *)
Lemma authorized_to_read_principals serialized permissions principals :
  attr_get serialized "permissions" VNone = Return permissions →
  _authorized_to_read principals permissions =
  match read_principals_of serialized with
  | Return read_principals =>
    Return (bool_decide (intersect read_principals principals))
  | Raise e => Raise e
  end.
Proof.
  intros Hperm. unfold read_principals_of, _authorized_to_read.
  rewrite Hperm; simpl.
  destruct (attr_get permissions "read" (VList [])) as [rl|e]; simpl; [|done].
  destruct (translate_annotation_principals rl) as [rp|e]; simpl; [|done].
  destruct (decide (_ = ∅)) as [Hempty|Hne].
  - rewrite bool_decide_eq_false_2; [done|].
    intros Hi%intersect_inter. done.
  - rewrite bool_decide_eq_true_2; [done|]. by apply intersect_inter.
Qed.

Lemma read_principals_of_dict serialized read_principals :
  read_principals_of serialized = Return read_principals →
  ∃ d, serialized = VDict d.
Proof.
  unfold read_principals_of. destruct serialized; simpl; try done. eauto.
Qed.

(** ** Which sockets are sent an annotation event, and what *)

Lemma generate_annotation_event_delivers message socket annotation user_nipsad
    notification :
  _generate_annotation_event message socket annotation user_nipsad
    = Return (Some notification) ↔
  ∃ action id_ serialized,
    passes_gates message socket annotation user_nipsad action id_ serialized
    ∧ notification =
        annotation_notification action
          (if py_eq_str action "delete" then VDict {[ "id" := id_ ]}
           else serialized).
Proof.
  unfold _generate_annotation_event, getitem. split.
  - destruct (message !! "action") as [action|] eqn:Haction; simpl; [|done].
    destruct (py_eq_str action "read") eqn:Hread; [done|].
    destruct (message !! "src_client_id") as [src|] eqn:Hsrc; simpl; [|done].
    destruct (py_eq_str src _) eqn:Hecho; [done|].
    destruct (WebSocket.filter socket) as [flt|] eqn:Hflt; [|done].
    destruct (message !! "annotation_id") as [id_|] eqn:Hid; simpl; [|done].
    intros Hrun.
    assert (∃ serialized,
      serialized_for message socket annotation serialized ∧
      (userid ← attr_get serialized "user" VNone;
       if user_nipsad
          && negb (py_eq_optstr (WebSocket.authenticated_userid socket) userid)
       then Return None else
       permissions ← attr_get serialized "permissions" VNone;
       authorized ←
         _authorized_to_read (WebSocket.effective_principals socket) permissions;
       if negb authorized then Return None else
       if negb (filter_match flt serialized action) then Return None else
       Return (Some
         (if py_eq_str action "delete"
          then <["payload" := VList [VDict {[ "id" := id_ ]}]]>
                 (<["payload" := VList [serialized]]>
                    ({[ "type" := VStr "annotation-notification";
                        "options" := VDict {[ "action" := action ]} ]}
                     : gmap string value))
          else <["payload" := VList [serialized]]>
                 {[ "type" := VStr "annotation-notification";
                    "options" := VDict {[ "action" := action ]} ]})))
      = Return (Some notification)) as (serialized & Hser & Hrest).
    { destruct (py_eq_str action "delete") eqn:Hdel.
      - destruct (message !! "annotation_dict") as [d|] eqn:Hd; simpl in Hrun; [|done].
        exists d. split; [by eapply serialized_snapshot|done].
      - destruct annotation as [a|]; simpl in Hrun; [|done].
        eexists. split; [by eapply serialized_live|done]. }
    clear Hrun.
    destruct (attr_get serialized "user" VNone) as [userid|] eqn:Huser;
      simpl in Hrest; [|done].
    destruct (user_nipsad && _) eqn:Hnipsa; [done|].
    destruct (attr_get serialized "permissions" VNone) as [perms|] eqn:Hperm;
      simpl in Hrest; [|done].
    rewrite (authorized_to_read_principals serialized) in Hrest by done.
    destruct (read_principals_of serialized) as [rp|] eqn:Hrp;
      simpl in Hrest; [|done].
    case_bool_decide as Hint; simpl in Hrest; [|done].
    destruct (filter_match flt serialized action) eqn:Hmatch;
      simpl in Hrest; [|done].
    exists action, id_, serialized. split.
    + eapply Passes; eauto.
      intros ->. simpl in Hnipsa. by apply negb_false_iff in Hnipsa.
    + injection Hrest as <-. by destruct (py_eq_str action "delete").
  - intros (action & id_ & serialized & Hpass & ->).
    destruct Hpass as [action src flt id_ serialized userid rp
      Haction Hread Hsrc Hecho Hflt Hid Hser Huser Hnipsa Hrp Hint Hmatch].
    rewrite Haction; simpl. rewrite Hread, Hsrc; simpl.
    rewrite Hecho, Hflt, Hid; simpl.
    assert (Hgate : user_nipsad
        && negb (py_eq_optstr (WebSocket.authenticated_userid socket) userid)
        = false).
    { destruct user_nipsad; [|done]. simpl. by rewrite Hnipsa. }
    assert (Hrest :
      (userid ← attr_get serialized "user" VNone;
       if user_nipsad
          && negb (py_eq_optstr (WebSocket.authenticated_userid socket) userid)
       then Return None else
       permissions ← attr_get serialized "permissions" VNone;
       authorized ←
         _authorized_to_read (WebSocket.effective_principals socket) permissions;
       if negb authorized then Return None else
       if negb (filter_match flt serialized action) then Return None else
       Return (Some
         (if py_eq_str action "delete"
          then <["payload" := VList [VDict {[ "id" := id_ ]}]]>
                 (<["payload" := VList [serialized]]>
                    ({[ "type" := VStr "annotation-notification";
                        "options" := VDict {[ "action" := action ]} ]}
                     : gmap string value))
          else <["payload" := VList [serialized]]>
                 {[ "type" := VStr "annotation-notification";
                    "options" := VDict {[ "action" := action ]} ]})))
      = Return (Some (annotation_notification action
          (if py_eq_str action "delete" then VDict {[ "id" := id_ ]}
           else serialized)))).
    { rewrite Huser; simpl. rewrite Hgate.
      destruct (read_principals_of_dict _ _ Hrp) as [d ->]. simpl.
      rewrite (authorized_to_read_principals (VDict d)) by done.
      rewrite Hrp; simpl. rewrite bool_decide_eq_true_2 by done; simpl.
      rewrite Hmatch; simpl. by destruct (py_eq_str action "delete"). }
    destruct Hser as [a' sd Ha' Hd Hs | a' ann Ha' Hd Hann].
    + assert (a' = action) as -> by congruence.
      rewrite Hd, Hs; simpl. by rewrite Hd in Hrest.
    + assert (a' = action) as -> by congruence.
      rewrite Hd, Hann; simpl. by rewrite Hd in Hrest.
Qed.

Lemma passes_gates_event message socket annotation user_nipsad action id_
    serialized :
  passes_gates message socket annotation user_nipsad action id_ serialized →
  message !! "action" = Some action
  ∧ message !! "annotation_id" = Some id_
  ∧ serialized_for message socket annotation serialized.
Proof. by intros []. Qed.

(** A socket whose principals do not intersect the read principals is
    answered [None]. *)
Lemma generate_annotation_event_unauthorized message socket annotation
    user_nipsad serialized read_principals :
  serialized_for message socket annotation serialized →
  read_principals_of serialized = Return read_principals →
  ¬ intersect read_principals (WebSocket.effective_principals socket) →
  is_Some (message !! "src_client_id") →
  is_Some (message !! "annotation_id") →
  _generate_annotation_event message socket annotation user_nipsad = Return None.
Proof.
  intros Hser Hrp Hni [src Hsrc] [id_ Hid].
  assert (Hrest : ∀ flt action kont,
    (userid ← attr_get serialized "user" VNone;
     if user_nipsad
        && negb (py_eq_optstr (WebSocket.authenticated_userid socket) userid)
     then Return None else
     permissions ← attr_get serialized "permissions" VNone;
     authorized ←
       _authorized_to_read (WebSocket.effective_principals socket) permissions;
     if negb authorized then Return None else
     if negb (filter_match flt serialized action) then Return None else
     Return (Some kont)) = Return (@None (gmap string value))).
  { intros flt action kont.
    destruct (read_principals_of_dict _ _ Hrp) as [d ->]; simpl.
    destruct (user_nipsad && _); [done|].
    rewrite (authorized_to_read_principals (VDict d)) by done.
    rewrite Hrp; simpl. by rewrite bool_decide_eq_false_2. }
  unfold _generate_annotation_event, getitem.
  destruct Hser as [action sd Ha Hd Hs | action a Ha Hd Hann];
    rewrite Ha; simpl;
    (destruct (py_eq_str action "read"); [done|]);
    rewrite Hsrc; simpl;
    (destruct (py_eq_str src _); [done|]);
    (destruct (WebSocket.filter socket) as [flt|]; [|done]);
    rewrite Hid; simpl; rewrite Hd.
  - rewrite Hs; simpl. apply Hrest.
  - rewrite Hann; simpl. apply Hrest.
Qed.

(** When the translation of the permissions raises, so does the pipeline,
    for a socket that passes the gates before it. *)
Lemma generate_annotation_event_translation_raises message socket annotation
    user_nipsad serialized e :
  serialized_for message socket annotation serialized →
  read_principals_of serialized = Raise e →
  passes_earlier_gates message socket user_nipsad serialized →
  _generate_annotation_event message socket annotation user_nipsad = Raise e.
Proof.
  intros Hser Hrp (action & src & flt & id_ & Ha & Hread & Hsrc & Hecho
                   & Hflt & Hid & Hnipsa).
  assert (Hrest : ∀ kont,
    (userid ← attr_get serialized "user" VNone;
     if user_nipsad
        && negb (py_eq_optstr (WebSocket.authenticated_userid socket) userid)
     then Return None else
     permissions ← attr_get serialized "permissions" VNone;
     authorized ←
       _authorized_to_read (WebSocket.effective_principals socket) permissions;
     if negb authorized then Return None else
     if negb (filter_match flt serialized action) then Return None else
     Return (Some kont)) = @Raise (option (gmap string value)) e).
  { intros kont. unfold read_principals_of in Hrp.
    destruct serialized as [| ? | ? | ? | ? | d]; simpl in *; try congruence.
    assert (user_nipsad
      && negb (py_eq_optstr (WebSocket.authenticated_userid socket)
                 (dict_get d "user" VNone)) = false) as ->.
    { destruct user_nipsad; [|done]. simpl. by rewrite Hnipsa. }
    rewrite (authorized_to_read_principals (VDict d)) by done.
    unfold read_principals_of; simpl. by rewrite Hrp. }
  unfold _generate_annotation_event, getitem.
  rewrite Ha; simpl. rewrite Hread, Hsrc; simpl. rewrite Hecho, Hflt, Hid; simpl.
  destruct Hser as [a' sd Ha' Hd Hs | a' a Ha' Hd Hann];
    assert (a' = action) as -> by congruence; rewrite Hd.
  - rewrite Hs; simpl. apply Hrest.
  - rewrite Hann; simpl. apply Hrest.
Qed.

(** ** The annotation handler's run *)

Lemma handle_annotation_event_run message sockets session id_ userid :
  message !! "annotation_id" = Some id_ →
  resolved_userid message (fetch_annotation session id_) = Return userid →
  handle_annotation_event message sockets session =
  let run :=
    fan_out (λ socket,
      _generate_annotation_event message socket
        (fetch_annotation session id_) (is_flagged session userid)) sockets in
  (EvFetch id_ :: EvIsFlagged userid :: run.1, run.2).
Proof.
  intros Hid Hu. unfold handle_annotation_event, getitem.
  rewrite Hid. unfold resolved_userid in Hu.
  unfold mbind, M_bind, lift, emit; simpl. rewrite Hu; simpl.
  unfold fan_out, mbind, M_bind, lift. by destruct (for_each sockets _).
Qed.

(** The events of a run that raises before the loop. *)
Lemma handle_annotation_event_early message sockets session :
  (message !! "annotation_id" = None →
   handle_annotation_event message sockets session
   = ([], Raise (KeyError "annotation_id")))
  ∧ (∀ id_ e, message !! "annotation_id" = Some id_ →
       resolved_userid message (fetch_annotation session id_) = Raise e →
       handle_annotation_event message sockets session
       = ([EvFetch id_], Raise e)).
Proof.
  split.
  - intros Hid. unfold handle_annotation_event, getitem. by rewrite Hid.
  - intros id_ e Hid Hu. unfold handle_annotation_event, getitem.
    rewrite Hid. unfold resolved_userid in Hu.
    unfold mbind, M_bind, lift, emit; simpl. by rewrite Hu.
Qed.

(** Every reply the handler sends was generated for that socket, with the
    fetched annotation and the flag of the one nipsa look-up. *)
Lemma handle_annotation_event_sends message sockets session socket reply :
  EvSendJson socket reply ∈ (handle_annotation_event message sockets session).1 →
  ∃ id_ userid,
    message !! "annotation_id" = Some id_
    ∧ resolved_userid message (fetch_annotation session id_) = Return userid
    ∧ socket ∈ sockets
    ∧ _generate_annotation_event message socket
        (fetch_annotation session id_) (is_flagged session userid)
      = Return (Some reply).
Proof.
  destruct (handle_annotation_event_early message sockets session) as [Hno Hraise].
  destruct (message !! "annotation_id") as [id_|] eqn:Hid.
  - destruct (resolved_userid message (fetch_annotation session id_))
      as [userid|e] eqn:Hu.
    + rewrite (handle_annotation_event_run _ _ _ id_ userid) by done. simpl.
      intros Hin. apply elem_of_cons in Hin as [?|Hin]; [done|].
      apply elem_of_cons in Hin as [?|Hin]; [done|].
      apply fan_out_sound in Hin as (s' & r' & [= <- <-] & ? & ?).
      by exists id_, userid.
    + rewrite (Hraise id_ e) by done. simpl.
      intros Hin. apply elem_of_cons in Hin as [?|Hin]; [done|].
      by apply elem_of_nil in Hin.
  - rewrite Hno by done. by intros ?%elem_of_nil.
Qed.

(** The nipsa flag makes no difference for a socket authenticated as the
    user the serialized document names. *)
Lemma generate_annotation_event_own message socket annotation serialized author :
  serialized_for message socket annotation serialized →
  attr_get serialized "user" VNone = Return author →
  py_eq_optstr (WebSocket.authenticated_userid socket) author = true →
  _generate_annotation_event message socket annotation true
  = _generate_annotation_event message socket annotation false.
Proof.
  intros Hser Huser Hown. unfold _generate_annotation_event, getitem.
  destruct Hser as [action sd Ha Hd Hs | action a Ha Hd Hann];
    rewrite Ha; simpl;
    (destruct (py_eq_str action "read"); [done|]);
    (destruct (message !! "src_client_id") as [src|]; simpl; [|done]);
    (destruct (py_eq_str src _); [done|]);
    (destruct (WebSocket.filter socket) as [flt|]; [|done]);
    (destruct (message !! "annotation_id") as [id_|]; simpl; [|done]);
    rewrite Hd.
  - rewrite Hs; simpl. rewrite Huser; simpl. by rewrite Hown.
  - unfold links_service_of in Huser. simpl in Huser. injection Huser as Huser.
    rewrite Hann; simpl. rewrite Huser; simpl. by rewrite Hown.
Qed.

Lemma nipsa_lookups_fan_out generate sockets :
  nipsa_lookups (fan_out generate sockets).1 = [].
Proof.
  induction sockets as [|s sockets IH]; [done|].
  rewrite fan_out_cons. by destruct (generate s) as [[r|]|e].
Qed.

(** ** The user handler *)

Lemma generate_user_event_shape message socket type userid session_model :
  message !! "type" = Some type →
  message !! "userid" = Some userid →
  message !! "session_model" = Some session_model →
  _generate_user_event message socket =
  Return (if py_eq_optstr (WebSocket.authenticated_userid socket) userid
          then Some (session_change type session_model) else None).
Proof.
  intros Ht Hu Hm. unfold _generate_user_event, getitem.
  rewrite Hu; simpl. destruct (py_eq_optstr _ userid); simpl; [|done].
  by rewrite Ht, Hm.
Qed.

End pipeline.

(** ** The consumer *)

(** A full queue is logged, never raised. *)
Lemma _handler_returns routing_key payload w :
  (_handler routing_key payload w).2 = Return ().
Proof.
  unfold _handler, put.
  destruct (maxsize (work_queue w)); [|done]. by case_decide.
Qed.

(** The run of the consumer ends as the subscription does. *)
Lemma Consumer_run_ends routing_key inbound quits w :
  (Consumer_run (_handler routing_key) inbound quits w).2 = quits.
Proof.
  revert w. induction inbound as [|payload inbound IH]; intros w; [done|].
  simpl. pose proof (_handler_returns routing_key payload w) as Hret.
  destruct (_handler routing_key payload w) as [w' [[]|e]]; [apply IH|done].
Qed.

(** * The claims *)

Section claims.
Context {C : Collaborators}.

Implicit Types (message : gmap string value) (socket : WebSocket.t).
Implicit Types (annotation : option Annotation) (serialized : value).

(** C1: for an annotation event and a socket, when the translated read
    principals of the serialized document's permissions do not intersect
    the socket's effective principals, [_generate_annotation_event]
    returns [None] and [handle_annotation_event] sends nothing to that
    socket; a reply is generated, and sent, only when the two sets of
    principals intersect. *)
Theorem authorization_gate message socket annotation serialized read_principals :
  serialized_for message socket annotation serialized →
  read_principals_of serialized = Return read_principals →
  (¬ intersect read_principals (WebSocket.effective_principals socket) →
   is_Some (message !! "src_client_id") →
   is_Some (message !! "annotation_id") →
   ∀ user_nipsad,
     _generate_annotation_event message socket annotation user_nipsad
     = Return None)
  ∧ (¬ intersect read_principals (WebSocket.effective_principals socket) →
     ∀ sockets session id_ reply,
       message !! "annotation_id" = Some id_ →
       fetch_annotation session id_ = annotation →
       EvSendJson socket reply
         ∉ (handle_annotation_event message sockets session).1)
  ∧ (∀ user_nipsad reply,
       _generate_annotation_event message socket annotation user_nipsad
       = Return (Some reply) →
       intersect read_principals (WebSocket.effective_principals socket)).
Proof.
  intros Hser Hrp.
  assert (Honly : ∀ user_nipsad reply,
    _generate_annotation_event message socket annotation user_nipsad
    = Return (Some reply) →
    intersect read_principals (WebSocket.effective_principals socket)).
  { intros user_nipsad reply
      (action & id_ & serialized' & Hpass & _)%generate_annotation_event_delivers.
    destruct Hpass as [? ? ? ? ? ? rp' _ _ _ _ _ _ Hser' _ _ Hrp' Hint _].
    rewrite <- (serialized_for_unique _ _ _ _ _ Hser Hser') in Hrp'.
    congruence. }
  split_and!; [|
    |done].
  - intros Hni Hsrc Hid user_nipsad.
    by eapply generate_annotation_event_unauthorized.
  - intros Hni sockets session id_ reply Hid Hfetch Hin.
    apply handle_annotation_event_sends in Hin
      as (id' & userid & Hid' & _ & _ & Hgen).
    assert (id' = id_) as -> by congruence. rewrite Hfetch in Hgen.
    by apply Hni, (Honly _ _ Hgen).
Qed.

(** C2 (amended): when translating the serialized document's permissions
    into read principals fails, the event is never delivered to that
    socket, but the failure is not turned into a non-match: for a socket
    that passes the gates before authorization the exception leaves
    [_generate_annotation_event], and [handle_annotation_event] ends with
    an exception. *)
Theorem translation_failure_propagates message socket annotation serialized e :
  serialized_for message socket annotation serialized →
  read_principals_of serialized = Raise e →
  (∀ user_nipsad reply,
     _generate_annotation_event message socket annotation user_nipsad
     ≠ Return (Some reply))
  ∧ (∀ sockets session id_ reply,
       message !! "annotation_id" = Some id_ →
       fetch_annotation session id_ = annotation →
       EvSendJson socket reply
         ∉ (handle_annotation_event message sockets session).1)
  ∧ (∀ user_nipsad,
       passes_earlier_gates message socket user_nipsad serialized →
       _generate_annotation_event message socket annotation user_nipsad
       = Raise e)
  ∧ (∀ sockets session id_ userid,
       message !! "annotation_id" = Some id_ →
       fetch_annotation session id_ = annotation →
       resolved_userid message annotation = Return userid →
       socket ∈ sockets →
       passes_earlier_gates message socket (is_flagged session userid)
         serialized →
       ∃ e', (handle_annotation_event message sockets session).2 = Raise e').
Proof.
  intros Hser Hrp.
  assert (Hnever : ∀ user_nipsad reply,
    _generate_annotation_event message socket annotation user_nipsad
    ≠ Return (Some reply)).
  { intros user_nipsad reply
      (action & id_ & serialized' & Hpass & _)%generate_annotation_event_delivers.
    destruct Hpass as [? ? ? ? ? ? rp' _ _ _ _ _ _ Hser' _ _ Hrp' _ _].
    rewrite <- (serialized_for_unique _ _ _ _ _ Hser Hser') in Hrp'.
    congruence. }
  split_and!; [done| | |].
  - intros sockets session id_ reply Hid Hfetch Hin.
    apply handle_annotation_event_sends in Hin
      as (id' & userid & Hid' & _ & _ & Hgen).
    assert (id' = id_) as -> by congruence. rewrite Hfetch in Hgen.
    by apply Hnever in Hgen.
  - intros user_nipsad Hpass.
    by eapply generate_annotation_event_translation_raises.
  - intros sockets session id_ userid Hid Hfetch Hu Hin Hpass. subst annotation.
    rewrite (handle_annotation_event_run _ _ _ id_ userid) by done. simpl.
    eapply fan_out_raises; [done|].
    by eapply generate_annotation_event_translation_raises.
Qed.

(** C4: a socket whose filter is [None] is never delivered an annotation
    event: [_generate_annotation_event] returns [None] for it, and
    [handle_annotation_event] sends it nothing. *)
Theorem no_filter_no_delivery message socket :
  WebSocket.filter socket = None →
  (∀ annotation user_nipsad,
     is_Some (message !! "action") →
     is_Some (message !! "src_client_id") →
     _generate_annotation_event message socket annotation user_nipsad
     = Return None)
  ∧ (∀ annotation user_nipsad reply,
       _generate_annotation_event message socket annotation user_nipsad
       ≠ Return (Some reply))
  ∧ (∀ sockets session reply,
       EvSendJson socket reply
         ∉ (handle_annotation_event message sockets session).1).
Proof.
  intros Hflt.
  assert (Hnever : ∀ annotation user_nipsad reply,
    _generate_annotation_event message socket annotation user_nipsad
    ≠ Return (Some reply)).
  { intros annotation user_nipsad reply
      (action & id_ & serialized & Hpass & _)%generate_annotation_event_delivers.
    destruct Hpass. congruence. }
  split_and!; [|done|].
  - intros annotation user_nipsad [action Ha] [src Hsrc].
    unfold _generate_annotation_event, getitem.
    rewrite Ha; simpl. destruct (py_eq_str action "read"); [done|].
    rewrite Hsrc; simpl. destruct (py_eq_str src _); [done|].
    by rewrite Hflt.
  - intros sockets session reply Hin.
    apply handle_annotation_event_sends in Hin as (id_ & userid & _ & _ & _ & Hgen).
    by apply Hnever in Hgen.
Qed.

(** C3: when the author an annotation event resolves to is shadow-banned,
    a socket authenticated as the author of the serialized document is not
    suppressed by the nipsa gate (its reply is the one it has without the
    ban, and that reply is sent), while a socket authenticated as anyone
    else is sent nothing. *)
Theorem shadow_ban_gate message sockets session socket id_ userid serialized
    author :
  message !! "annotation_id" = Some id_ →
  resolved_userid message (fetch_annotation session id_) = Return userid →
  is_flagged session userid = true →
  serialized_for message socket (fetch_annotation session id_) serialized →
  attr_get serialized "user" VNone = Return author →
  (author = identity_value (WebSocket.authenticated_userid socket) →
   _generate_annotation_event message socket (fetch_annotation session id_) true
   = _generate_annotation_event message socket (fetch_annotation session id_) false
   ∧ ∀ reply,
       socket ∈ sockets →
       (handle_annotation_event message sockets session).2 = Return () →
       _generate_annotation_event message socket
         (fetch_annotation session id_) false = Return (Some reply) →
       EvSendJson socket reply
         ∈ (handle_annotation_event message sockets session).1)
  ∧ (author ≠ identity_value (WebSocket.authenticated_userid socket) →
     (∀ reply,
        _generate_annotation_event message socket
          (fetch_annotation session id_) true ≠ Return (Some reply))
     ∧ ∀ reply,
         EvSendJson socket reply
           ∉ (handle_annotation_event message sockets session).1).
Proof.
  intros Hid Hu Hflag Hser Huser.
  rewrite (handle_annotation_event_run _ _ _ id_ userid) by done.
  rewrite Hflag. simpl. split.
  - intros Hown%py_eq_optstr_true.
    pose proof (generate_annotation_event_own _ _ _ _ _ Hser Huser Hown) as Heq.
    split; [done|]. intros reply Hin Hret Hgen.
    right. right. apply fan_out_complete; [done..|]. by rewrite Heq.
  - intros Hother%py_eq_optstr_false.
    assert (Hnever : ∀ reply,
      _generate_annotation_event message socket
        (fetch_annotation session id_) true ≠ Return (Some reply)).
    { intros reply
        (action & id' & serialized' & Hpass & _)%generate_annotation_event_delivers.
      destruct Hpass as [? ? ? ? ? userid' ? _ _ _ _ _ _ Hser' Huser' Hgate _ _ _].
      rewrite <- (serialized_for_unique _ _ _ _ _ Hser Hser') in Huser'.
      specialize (Hgate eq_refl). congruence. }
    split; [done|]. intros reply Hin.
    apply elem_of_cons in Hin as [?|Hin]; [done|].
    apply elem_of_cons in Hin as [?|Hin]; [done|].
    apply fan_out_sound in Hin as (s' & r' & [= <- <-] & _ & Hgen).
    by apply Hnever in Hgen.
Qed.

(** C5: [handle_annotation_event] asks the nipsa service exactly once per
    event, whatever the number of sockets, and asks about the live
    annotation's author when the annotation is fetched and about the
    [user] field of the payload's [annotation_dict] otherwise. *)
Theorem nipsa_lookup_once message sockets session id_ :
  message !! "annotation_id" = Some id_ →
  (∀ a, fetch_annotation session id_ = Some a →
     nipsa_lookups (handle_annotation_event message sockets session).1
     = [VStr (annotation_userid a)])
  ∧ (fetch_annotation session id_ = None →
     ∀ annotation_dict,
       dict_get message "annotation_dict" (VDict ∅) = VDict annotation_dict →
       nipsa_lookups (handle_annotation_event message sockets session).1
       = [dict_get annotation_dict "user" VNone]).
Proof.
  intros Hid. split.
  - intros a Hfetch.
    rewrite (handle_annotation_event_run _ _ _ id_ (VStr (annotation_userid a))).
    + simpl. by rewrite nipsa_lookups_fan_out.
    + done.
    + by rewrite Hfetch.
  - intros Hfetch d Hd.
    rewrite (handle_annotation_event_run _ _ _ id_ (dict_get d "user" VNone)).
    + simpl. by rewrite nipsa_lookups_fan_out.
    + done.
    + rewrite Hfetch. simpl. by rewrite Hd.
Qed.

(** C6: a socket that passes all the gates is answered a notification of
    type [annotation-notification] with options [{action}], whose payload
    is the one-element list of the serialized document, except for a
    delete, where it is the one-element list of [{id: annotation_id}]
    whatever the snapshot holds; and nothing else is ever answered. *)
Theorem notification_shape message socket annotation user_nipsad :
  (∀ action id_ serialized,
     passes_gates message socket annotation user_nipsad action id_ serialized →
     _generate_annotation_event message socket annotation user_nipsad
     = Return (Some
         (annotation_notification action
            (if py_eq_str action "delete" then VDict {[ "id" := id_ ]}
             else serialized))))
  ∧ (∀ notification,
       _generate_annotation_event message socket annotation user_nipsad
       = Return (Some notification) →
       ∃ action id_ serialized,
         message !! "action" = Some action
         ∧ message !! "annotation_id" = Some id_
         ∧ serialized_for message socket annotation serialized
         ∧ notification =
             {[ "type" := VStr "annotation-notification";
                "options" := VDict {[ "action" := action ]};
                "payload" :=
                  VList [if py_eq_str action "delete"
                         then VDict {[ "id" := id_ ]} else serialized] ]})
  ∧ (∀ sockets session reply,
       EvSendJson socket reply
         ∈ (handle_annotation_event message sockets session).1 →
       ∃ action id_ serialized,
         message !! "action" = Some action
         ∧ message !! "annotation_id" = Some id_
         ∧ serialized_for message socket (fetch_annotation session id_)
             serialized
         ∧ reply =
             {[ "type" := VStr "annotation-notification";
                "options" := VDict {[ "action" := action ]};
                "payload" :=
                  VList [if py_eq_str action "delete"
                         then VDict {[ "id" := id_ ]} else serialized] ]}).
Proof.
  split_and!.
  - intros action id_ serialized Hpass.
    apply generate_annotation_event_delivers. eauto.
  - intros notification
      (action & id_ & serialized & Hpass & ->)%generate_annotation_event_delivers.
    exists action, id_, serialized.
    by destruct (passes_gates_event _ _ _ _ _ _ _ Hpass) as (? & ? & ?).
  - intros sockets session reply
      (id_ & userid & Hid & _ & _ & Hgen)%handle_annotation_event_sends.
    apply generate_annotation_event_delivers in Hgen
      as (action & id' & serialized & Hpass & ->).
    destruct (passes_gates_event _ _ _ _ _ _ _ Hpass) as (Ha & Hid' & Hser).
    assert (id' = id_) as -> by congruence.
    by exists action, id_, serialized.
Qed.

(** C7: for a user event, a socket is sent a message if and only if its
    [authenticated_userid] is equal to the payload's [userid]; the socket's
    filter plays no part; and the message is
    [{type: session-change, action: type, model: session_model}]. *)
Theorem user_event_targeting message type userid session_model :
  message !! "type" = Some type →
  message !! "userid" = Some userid →
  message !! "session_model" = Some session_model →
  (∀ socket reply,
     _generate_user_event message socket = Return (Some reply) ↔
     userid = identity_value (WebSocket.authenticated_userid socket)
     ∧ reply = {[ "type" := VStr "session-change";
                  "action" := type;
                  "model" := session_model ]})
  ∧ (∀ socket,
       userid ≠ identity_value (WebSocket.authenticated_userid socket) →
       _generate_user_event message socket = Return None)
  ∧ (∀ sockets session socket reply,
       EvSendJson socket reply ∈ (handle_user_event message sockets session).1 ↔
       socket ∈ sockets
       ∧ userid = identity_value (WebSocket.authenticated_userid socket)
       ∧ reply = {[ "type" := VStr "session-change";
                    "action" := type;
                    "model" := session_model ]})
  ∧ (∀ sockets session,
       (handle_user_event message sockets session).2 = Return ())
  ∧ (∀ socket flt,
       _generate_user_event message (with_filter flt socket)
       = _generate_user_event message socket).
Proof.
  intros Ht Hu Hm.
  assert (Hgen : ∀ socket reply,
    _generate_user_event message socket = Return (Some reply) ↔
    userid = identity_value (WebSocket.authenticated_userid socket)
    ∧ reply = session_change type session_model).
  { intros socket reply.
    rewrite (generate_user_event_shape _ _ _ _ _ Ht Hu Hm).
    rewrite <- py_eq_optstr_true.
    destruct (py_eq_optstr _ userid); split.
    - by intros [= <-].
    - by intros [_ ->].
    - done.
    - by intros [? _]. }
  assert (Hret : ∀ sockets session,
    (handle_user_event message sockets session).2 = Return ()).
  { intros sockets session.
    change (handle_user_event message sockets session)
      with (fan_out (_generate_user_event message) sockets).
    rewrite fan_out_total; [done|].
    intros socket _. rewrite (generate_user_event_shape _ _ _ _ _ Ht Hu Hm). eauto. }
  split_and!; [done| | |done|].
  - intros socket Hne%py_eq_optstr_false.
    rewrite (generate_user_event_shape _ _ _ _ _ Ht Hu Hm). by rewrite Hne.
  - intros sockets session socket reply. split.
    + intros (s' & r' & [= <- <-] & Hin & Hg%Hgen)%fan_out_sound. by split.
    + intros (Hin & Hown & Hreply).
      apply fan_out_complete; [apply (Hret sockets session)|done|]. by apply Hgen.
  - done.
Qed.

(** C10: a user event whose [userid] is null is delivered, shaped as a
    session change, to every socket whose [authenticated_userid] is null
    too. *)
Theorem null_userid_reaches_unauthenticated message type session_model socket :
  message !! "type" = Some type →
  message !! "userid" = Some VNone →
  message !! "session_model" = Some session_model →
  WebSocket.authenticated_userid socket = None →
  _generate_user_event message socket
  = Return (Some {[ "type" := VStr "session-change";
                    "action" := type;
                    "model" := session_model ]})
  ∧ ∀ sockets session,
      socket ∈ sockets →
      EvSendJson socket {[ "type" := VStr "session-change";
                           "action" := type;
                           "model" := session_model ]}
        ∈ (handle_user_event message sockets session).1.
Proof.
  intros Ht Hu Hm Hanon.
  assert (Hgen : _generate_user_event message socket
                 = Return (Some (session_change type session_model))).
  { rewrite (generate_user_event_shape _ _ _ _ _ Ht Hu Hm). by rewrite Hanon. }
  split; [done|]. intros sockets session Hin.
  change (handle_user_event message sockets session)
    with (fan_out (_generate_user_event message) sockets).
  apply fan_out_complete; [|done..].
  rewrite fan_out_total; [done|].
  intros s _. rewrite (generate_user_event_shape _ _ _ _ _ Ht Hu Hm). eauto.
Qed.

(** C8 (amended): [handle_message] raises its own error, and calls no
    handler, if and only if no handler is registered for the message's
    topic; when one is registered, the run of [handle_message] is one call
    of that handler on the payload and the snapshot of the live sockets,
    and an exception of the handler leaves [handle_message]. *)
Theorem handle_message_dispatch instances (message : Message) session
    (topic_handlers :
       gmap string (gmap string value → list WebSocket.t → Session → M unit)) :
  (topic_handlers !! topic message = None →
   handle_message instances message session topic_handlers
   = ([], Raise (RuntimeError
            ("Don't know how to handle message from topic: " ++ topic message))))
  ∧ (∀ handler, topic_handlers !! topic message = Some handler →
       handle_message instances message session topic_handlers
       = handler (payload message) instances session).
Proof.
  unfold handle_message. split.
  - by intros ->.
  - intros handler ->. unfold mbind, M_bind, lift; simpl.
    by destruct (handler _ _ _).
Qed.

End claims.

(** C9 (amended): when the consumer's run loop returns, [process_messages]
    raises a [RuntimeError] if [raise_error] is true, which is the default,
    and returns normally if [raise_error] is false. *)
Theorem consumer_quit bus settings routing_key w :
  quits bus = Return () →
  (process_messages bus settings routing_key w true).2
  = Raise (RuntimeError "Realtime consumer quit unexpectedly!")
  ∧ (process_messages bus settings routing_key w false).2 = Return ().
Proof.
  intros Hquit. unfold process_messages.
  pose proof (Consumer_run_ends routing_key (inbound bus) (quits bus) w) as Hrun.
  destruct (Consumer_run _ _ _ _) as [w' [[]|e]]; simpl in Hrun; [done|congruence].
Qed.

(** * The claims on the concrete deployment *)


(** A private-group socket is answered [None] for the public annotation's
    event when its principals miss the read principals. *)
Lemma authorization_gate_witness :
  _generate_annotation_event Demo.create_A1 Demo.C2 (Some Demo.A1) false
  = Return None
  ∧ ∀ reply,
      EvSendJson Demo.C2 reply
        ∉ (handle_annotation_event Demo.create_A1 [Demo.C1; Demo.C2]
             Demo.session).1.
Proof.
  destruct (authorization_gate (C:=Demo.collaborators) Demo.create_A1 Demo.C2 (Some Demo.A1)
              (VDict (asdict (Collaborators:=Demo.collaborators) Demo.A1
                 (links_service_of Demo.C2)))
              ["group:public"]) as (Hnone & Hnosend & _).
  - eapply serialized_live; reflexivity.
  - reflexivity.
  - split.
    + apply Hnone.
      * apply (bool_decide_eq_false_1 (intersect _ _)). vm_compute. reflexivity.
      * eexists. reflexivity.
      * eexists. reflexivity.
    + intros reply. eapply Hnosend.
      * apply (bool_decide_eq_false_1 (intersect _ _)). vm_compute. reflexivity.
      * reflexivity.
      * reflexivity.
Defined.

(** A document without permissions entry: the translation fails, and the
    pipeline raises instead of answering [None]. *)
Lemma missing_permissions_raise :
  read_principals_of (VDict (asdict Demo.A2 (links_service_of Demo.C1)))
  = Raise (AttributeError "get")
  ∧ _generate_annotation_event Demo.create_A2 Demo.C1 (Some Demo.A2) false
    ≠ Return None
  ∧ handle_annotation_event Demo.create_A2 [Demo.C1; Demo.C4] Demo.session
    = ([EvFetch (VStr "A2"); EvIsFlagged (VStr "U1")],
       Raise (AttributeError "get")).
Proof. split_and!; [reflexivity|discriminate|reflexivity]. Qed.

Lemma translation_failure_propagates_witness :
  _generate_annotation_event Demo.create_A2 Demo.C1 (Some Demo.A2) false
  = Raise (AttributeError "get")
  ∧ ∀ reply,
      EvSendJson Demo.C1 reply
        ∉ (handle_annotation_event Demo.create_A2 [Demo.C1; Demo.C4]
             Demo.session).1.
Proof.
  destruct (translation_failure_propagates (C:=Demo.collaborators) Demo.create_A2 Demo.C1 (Some Demo.A2)
              (VDict (asdict (Collaborators:=Demo.collaborators) Demo.A2
                 (links_service_of Demo.C1)))
              (AttributeError "get")) as (_ & Hnosend & Hraise & _).
  - eapply serialized_live; reflexivity.
  - reflexivity.
  - split.
    + apply Hraise.
      exists (VStr "create"), (VStr "C9"), Demo.accept_all, (VStr "A2").
      split_and!; try reflexivity. intros userid Hflag. discriminate Hflag.
    + intros reply. eapply Hnosend; reflexivity.
Defined.

(** The author of a shadow-banned annotation is sent the event, another
    user is not. *)
Lemma shadow_ban_gate_witness :
  (∃ reply,
     EvSendJson Demo.C4 reply
       ∈ (handle_annotation_event Demo.create_A1 [Demo.C1; Demo.C4]
            Demo.session_nipsa).1)
  ∧ ∀ reply,
      EvSendJson Demo.C1 reply
        ∉ (handle_annotation_event Demo.create_A1 [Demo.C1; Demo.C4]
             Demo.session_nipsa).1.
Proof.
  split.
  - destruct (shadow_ban_gate (C:=Demo.collaborators) Demo.create_A1 [Demo.C1; Demo.C4]
                Demo.session_nipsa Demo.C4 (VStr "A1") (VStr "U1")
                (VDict (asdict (Collaborators:=Demo.collaborators) Demo.A1
                   (links_service_of Demo.C4)))
                (VStr "U1")) as [Hown _].
    + reflexivity.
    + reflexivity.
    + reflexivity.
    + eapply serialized_live; reflexivity.
    + reflexivity.
    + destruct Hown as [_ Hsent]; [reflexivity|].
      eexists. apply Hsent.
      * right. left.
      * reflexivity.
      * reflexivity.
  - destruct (shadow_ban_gate (C:=Demo.collaborators) Demo.create_A1 [Demo.C1; Demo.C4]
                Demo.session_nipsa Demo.C1 (VStr "A1") (VStr "U1")
                (VDict (asdict (Collaborators:=Demo.collaborators) Demo.A1
                   (links_service_of Demo.C1)))
                (VStr "U1")) as [_ Hother].
    + reflexivity.
    + reflexivity.
    + reflexivity.
    + eapply serialized_live; reflexivity.
    + reflexivity.
    + apply Hother. discriminate.
Defined.

Lemma no_filter_no_delivery_witness :
  _generate_annotation_event Demo.create_A1 Demo.C3 (Some Demo.A1) false
  = Return None
  ∧ ∀ reply,
      EvSendJson Demo.C3 reply
        ∉ (handle_annotation_event Demo.create_A1 [Demo.C1; Demo.C3]
             Demo.session).1.
Proof.
  destruct (no_filter_no_delivery (C:=Demo.collaborators) Demo.create_A1 Demo.C3) as (Hnone & _ & Hnosend).
  - reflexivity.
  - split.
    + apply Hnone; eexists; reflexivity.
    + intros reply. apply Hnosend.
Defined.

Lemma nipsa_lookup_once_witness :
  nipsa_lookups
    (handle_annotation_event Demo.create_A1 [Demo.C1; Demo.C2; Demo.C4]
       Demo.session).1 = [VStr "U1"]
  ∧ nipsa_lookups
      (handle_annotation_event Demo.delete_A1 [Demo.C1; Demo.C2; Demo.C4]
         Demo.session_deleted).1 = [VStr "U1"].
Proof.
  split.
  - refine (proj1 (nipsa_lookup_once (C:=Demo.collaborators) Demo.create_A1 [Demo.C1; Demo.C2; Demo.C4]
                     Demo.session (VStr "A1") _) Demo.A1 _); reflexivity.
  - refine (proj2 (nipsa_lookup_once (C:=Demo.collaborators) Demo.delete_A1 [Demo.C1; Demo.C2; Demo.C4]
                     Demo.session_deleted (VStr "A1") _) _ Demo.A1_dict _);
      reflexivity.
Defined.

(** A delete event is shaped to the annotation's id only. *)
Lemma notification_shape_witness :
  ∃ action id_ serialized,
    Demo.delete_A1 !! "action" = Some action
    ∧ Demo.delete_A1 !! "annotation_id" = Some id_
    ∧ serialized_for Demo.delete_A1 Demo.C1 None serialized
    ∧ ({[ "type" := VStr "annotation-notification";
          "options" := VDict {[ "action" := VStr "delete" ]};
          "payload" := VList [VDict {[ "id" := VStr "A1" ]}] ]}
       : gmap string value) =
        {[ "type" := VStr "annotation-notification";
           "options" := VDict {[ "action" := action ]};
           "payload" :=
             VList [if py_eq_str action "delete"
                    then VDict {[ "id" := id_ ]} else serialized] ]}.
Proof.
  apply (proj1 (proj2 (notification_shape (C:=Demo.collaborators)
                         Demo.delete_A1 Demo.C1 None false))).
  reflexivity.
Defined.

Lemma user_event_targeting_witness :
  EvSendJson Demo.C4 {[ "type" := VStr "session-change";
                        "action" := VStr "session-change";
                        "model" := VDict {[ "groups" := VList [] ]} ]}
    ∈ (handle_user_event (Demo.user_event (VStr "U1"))
         [Demo.C1; Demo.C4; Demo.C5] Demo.session).1
  ∧ _generate_user_event (Demo.user_event (VStr "U1")) Demo.C1 = Return None.
Proof.
  destruct (user_event_targeting (C:=Demo.collaborators)
              (Demo.user_event (VStr "U1"))
              (VStr "session-change") (VStr "U1")
              (VDict {[ "groups" := VList [] ]})) as (_ & Hnone & Hsent & _).
  - reflexivity.
  - reflexivity.
  - reflexivity.
  - split.
    + apply Hsent. split_and!; [right; left|reflexivity|reflexivity].
    + apply Hnone. discriminate.
Defined.

Lemma null_userid_reaches_unauthenticated_witness :
  EvSendJson Demo.C5 {[ "type" := VStr "session-change";
                        "action" := VStr "session-change";
                        "model" := VDict {[ "groups" := VList [] ]} ]}
    ∈ (handle_user_event (Demo.user_event VNone)
         [Demo.C1; Demo.C4; Demo.C5] Demo.session).1.
Proof.
  destruct (null_userid_reaches_unauthenticated (C:=Demo.collaborators) (Demo.user_event VNone)
              (VStr "session-change") (VDict {[ "groups" := VList [] ]})
              Demo.C5) as [_ Hsent].
  - reflexivity.
  - reflexivity.
  - reflexivity.
  - reflexivity.
  - apply Hsent. right. right. left.
Defined.

(** A registered handler that raises: the payload the group views publish
    on the [user] topic has no [session_model], and the error of
    [handle_user_event] leaves [handle_message]. *)
Lemma registered_handler_raises :
  ¬ ((∃ e,
        (handle_message [Demo.C4]
           {| topic := "user"; payload := Demo.group_notification |}
           Demo.session Demo.topic_handlers).2 = Raise e)
     ↔ Demo.topic_handlers !! "user" = None).
Proof.
  intros [Hraise _].
  assert (Demo.topic_handlers !! "user" = None) as Hnone.
  { apply Hraise. exists (KeyError "session_model"). reflexivity. }
  discriminate Hnone.
Qed.

Lemma handle_message_dispatch_witness :
  handle_message [Demo.C1; Demo.C4]
    {| topic := "group"; payload := Demo.group_notification |}
    Demo.session Demo.topic_handlers
  = ([], Raise (RuntimeError
           "Don't know how to handle message from topic: group"))
  ∧ handle_message [Demo.C1; Demo.C4]
      {| topic := "user"; payload := Demo.user_event (VStr "U1") |}
      Demo.session Demo.topic_handlers
    = handle_user_event (Demo.user_event (VStr "U1")) [Demo.C1; Demo.C4]
        Demo.session.
Proof.
  split.
  - apply (proj1 (handle_message_dispatch (C:=Demo.collaborators) [Demo.C1; Demo.C4]
                    {| topic := "group"; payload := Demo.group_notification |}
                    Demo.session Demo.topic_handlers)).
    reflexivity.
  - apply (proj2 (handle_message_dispatch (C:=Demo.collaborators) [Demo.C1; Demo.C4]
                    {| topic := "user"; payload := Demo.user_event (VStr "U1") |}
                    Demo.session Demo.topic_handlers)).
    reflexivity.
Defined.

(** With [raise_error] false, [process_messages] returns normally after
    the consumer's run loop has returned. *)
Lemma quiet_consumer_quit :
  (Consumer_run (_handler "annotation") (inbound Demo.bus) (quits Demo.bus)
     Demo.idle).2 = Return ()
  ∧ ¬ ∃ e, (process_messages Demo.bus ∅ "annotation" Demo.idle false).2
           = Raise e.
Proof. split; [reflexivity|]. intros [e He]. discriminate He. Qed.

Lemma consumer_quit_witness :
  (process_messages Demo.bus ∅ "annotation" Demo.idle true).2
  = Raise (RuntimeError "Realtime consumer quit unexpectedly!")
  ∧ (process_messages Demo.bus ∅ "annotation" Demo.idle false).2 = Return ().
Proof. apply (consumer_quit Demo.bus ∅ "annotation" Demo.idle). reflexivity. Defined.

(** The third payload finds the queue full: it is dropped with a warning. *)
Example saturated_queue :
  let w := (process_messages Demo.bus ∅ "annotation" Demo.idle true).1 in
  length (items (work_queue w)) = 2 ∧ length (warnings w) = 1.
Proof. split; reflexivity. Qed.

(** * Further properties of the streamer *)

Section fan_out_more.
Context (generate : WebSocket.t → result (option (gmap string value))).

Lemma replies_cons socket sockets :
  replies generate (socket :: sockets) =
  match generate socket with
  | Return (Some reply) => EvSendJson socket reply :: replies generate sockets
  | _ => replies generate sockets
  end.
Proof. unfold replies; simpl. by destruct (generate socket) as [[r|]|e]. Qed.

Lemma fan_out_replies sockets :
  (∀ socket, socket ∈ sockets → ∃ reply, generate socket = Return reply) →
  fan_out generate sockets = (replies generate sockets, Return ()).
Proof. apply fan_out_total. Qed.

(** The loop stops at the first socket that raises: the sockets before it
    have been served, the sockets after it are not even looked at. *)
Lemma fan_out_abort before socket after e :
  (∀ s, s ∈ before → ∃ reply, generate s = Return reply) →
  generate socket = Raise e →
  fan_out generate (before ++ socket :: after)
  = (replies generate before, Raise e).
Proof.
  intros Hbefore Hraise.
  induction before as [|s before IH]; simpl.
  - rewrite fan_out_cons. by rewrite Hraise.
  - rewrite fan_out_cons.
    destruct (Hbefore s) as [r Hr]; [left|].
    rewrite IH by (intros s' Hin; apply Hbefore; by right).
    unfold replies; simpl. rewrite Hr. by destruct r.
Qed.

Lemma fan_out_none sockets :
  (∀ socket, socket ∈ sockets → generate socket = Return None) →
  fan_out generate sockets = ([], Return ()).
Proof.
  intros Hnone. rewrite fan_out_replies.
  - f_equal. unfold replies.
    induction sockets as [|s sockets IH]; [done|]. simpl.
    rewrite Hnone by left. apply IH. intros s' Hin. apply Hnone. by right.
  - intros s Hin. rewrite Hnone by done. eauto.
Qed.

End fan_out_more.

Section streamer_more.
Context {C : Collaborators}.

Implicit Types (message : gmap string value) (socket : WebSocket.t).
Implicit Types (annotation : option Annotation) (serialized : value).

Lemma py_eq_str_true v s : py_eq_str v s = true ↔ v = VStr s.
Proof.
  destruct v; simpl; rewrite ?bool_decide_eq_true; split; congruence.
Qed.

(** No send without a generated reply. *)
Lemma handle_annotation_event_no_send message sockets session socket :
  (∀ annotation user_nipsad reply,
     _generate_annotation_event message socket annotation user_nipsad
     ≠ Return (Some reply)) →
  ∀ reply,
    EvSendJson socket reply ∉ (handle_annotation_event message sockets session).1.
Proof.
  intros Hnever reply
    (id_ & userid & _ & _ & _ & Hgen)%handle_annotation_event_sends.
  by apply Hnever in Hgen.
Qed.

(** X1: an event whose action is [read] is answered [None] for every
    socket, whatever else the payload holds, and no socket is sent
    anything; the handler still asks the store and the nipsa service. *)
Theorem read_events_suppressed message :
  message !! "action" = Some (VStr "read") →
  (∀ socket annotation user_nipsad,
     _generate_annotation_event message socket annotation user_nipsad
     = Return None)
  ∧ (∀ sockets session socket reply,
       EvSendJson socket reply
         ∉ (handle_annotation_event message sockets session).1)
  ∧ (∀ sockets session id_ userid,
       message !! "annotation_id" = Some id_
       → resolved_userid message (fetch_annotation session id_) = Return userid
       → handle_annotation_event message sockets session
         = ([EvFetch id_; EvIsFlagged userid], Return ())).
Proof.
  intros Ha.
  assert (Hnone : ∀ socket annotation user_nipsad,
    _generate_annotation_event message socket annotation user_nipsad
    = Return None).
  { intros. unfold _generate_annotation_event, getitem. by rewrite Ha. }
  split_and!; [done| |].
  - intros sockets session socket reply.
    apply handle_annotation_event_no_send. intros. by rewrite Hnone.
  - intros sockets session id_ userid Hid Hu.
    rewrite (handle_annotation_event_run _ _ _ id_ userid) by done.
    rewrite fan_out_none; [done|]. intros. apply Hnone.
Qed.

(** X2: the socket of the client an event comes from is answered [None]
    and is sent nothing. *)
Theorem self_echo_suppressed message socket :
  message !! "src_client_id" = Some (VStr (WebSocket.client_id socket)) →
  (is_Some (message !! "action") →
   ∀ annotation user_nipsad,
     _generate_annotation_event message socket annotation user_nipsad
     = Return None)
  ∧ (∀ sockets session reply,
       EvSendJson socket reply
         ∉ (handle_annotation_event message sockets session).1).
Proof.
  intros Hsrc. split.
  - intros [action Ha] annotation user_nipsad.
    unfold _generate_annotation_event, getitem.
    rewrite Ha; simpl. destruct (py_eq_str action "read"); [done|].
    rewrite Hsrc; simpl. by rewrite bool_decide_eq_true_2.
  - intros sockets session. apply handle_annotation_event_no_send.
    intros annotation user_nipsad reply
      (action & id_ & serialized & Hpass & _)%generate_annotation_event_delivers.
    destruct Hpass as [? src ? ? ? ? ? _ _ Hsrc' Hecho _ _ _ _ _ _ _ _].
    assert (src = VStr (WebSocket.client_id socket)) as -> by congruence.
    simpl in Hecho. by rewrite bool_decide_eq_true_2 in Hecho.
Qed.

(** An event that is not a delete, for an annotation the store no longer
    has, is answered [None]. *)
Lemma generate_annotation_event_gone message socket user_nipsad action :
  message !! "action" = Some action →
  py_eq_str action "delete" = false →
  is_Some (message !! "src_client_id") →
  is_Some (message !! "annotation_id") →
  _generate_annotation_event message socket None user_nipsad = Return None.
Proof.
  intros Ha Hdel [src Hsrc] [id_ Hid].
  unfold _generate_annotation_event, getitem.
  rewrite Ha; simpl. destruct (py_eq_str action "read"); [done|].
  rewrite Hsrc; simpl. destruct (py_eq_str src _); [done|].
  destruct (WebSocket.filter socket); [|done].
  rewrite Hid; simpl. by rewrite Hdel.
Qed.

(** X3: when the store no longer has the annotation of an event that is
    not a delete, no socket is sent anything; the whole run is the fetch
    and the nipsa look-up for the [user] of the payload's [annotation_dict]
    ([None] when the payload has none). *)
Theorem gone_annotation_suppressed message sockets session action id_ :
  message !! "action" = Some action →
  py_eq_str action "delete" = false →
  message !! "annotation_id" = Some id_ →
  fetch_annotation session id_ = None →
  (∀ socket reply,
     EvSendJson socket reply
       ∉ (handle_annotation_event message sockets session).1)
  ∧ (is_Some (message !! "src_client_id") →
     ∀ annotation_dict,
       dict_get message "annotation_dict" (VDict ∅) = VDict annotation_dict →
       handle_annotation_event message sockets session
       = ([EvFetch id_; EvIsFlagged (dict_get annotation_dict "user" VNone)],
          Return ())).
Proof.
  intros Ha Hdel Hid Hfetch. split.
  - intros socket reply
      (id' & userid & Hid' & _ & _ & Hgen)%handle_annotation_event_sends.
    assert (id' = id_) as -> by congruence. rewrite Hfetch in Hgen.
    apply generate_annotation_event_delivers in Hgen
      as (action' & id' & serialized & Hpass & _).
    destruct (passes_gates_event _ _ _ _ _ _ _ Hpass) as (Ha' & _ & Hser).
    destruct Hser as [a d Ha'' Hd _ | a ann _ _ Hann]; [congruence|done].
  - intros Hsrc d Hd.
    rewrite (handle_annotation_event_run _ _ _ id_ (dict_get d "user" VNone)).
    + rewrite Hfetch. rewrite fan_out_none; [done|].
      intros socket _. by eapply generate_annotation_event_gone.
    + done.
    + rewrite Hfetch. simpl. by rewrite Hd.
Qed.

(** X4: a socket whose filter does not match the serialized document and
    the action is answered no reply and is sent nothing. *)
Theorem filter_mismatch_suppressed message socket annotation socket_filter
    action serialized :
  WebSocket.filter socket = Some socket_filter →
  message !! "action" = Some action →
  serialized_for message socket annotation serialized →
  filter_match socket_filter serialized action = false →
  (∀ user_nipsad reply,
     _generate_annotation_event message socket annotation user_nipsad
     ≠ Return (Some reply))
  ∧ (∀ sockets session id_ reply,
       message !! "annotation_id" = Some id_ →
       fetch_annotation session id_ = annotation →
       EvSendJson socket reply
         ∉ (handle_annotation_event message sockets session).1).
Proof.
  intros Hflt Ha Hser Hmatch.
  assert (Hnever : ∀ user_nipsad reply,
    _generate_annotation_event message socket annotation user_nipsad
    ≠ Return (Some reply)).
  { intros user_nipsad reply
      (action' & id_ & serialized' & Hpass & _)%generate_annotation_event_delivers.
    destruct Hpass as [action' ? flt' ? serialized' ? ? Ha' _ _ _ Hflt' _ Hser'
                       _ _ _ _ Hmatch'].
    rewrite <- (serialized_for_unique _ _ _ _ _ Hser Hser') in Hmatch'.
    congruence. }
  split; [done|].
  intros sockets session id_ reply Hid Hfetch
    (id' & userid & Hid' & _ & _ & Hgen)%handle_annotation_event_sends.
  assert (id' = id_) as -> by congruence. rewrite Hfetch in Hgen.
  by apply Hnever in Hgen.
Qed.

(** X5: a delete event is decided and shaped from the payload's snapshot
    alone, whatever the store returns; any other event is decided from the
    store's annotation alone, whatever [annotation_dict] the payload
    carries. *)
Theorem payload_source message socket annotation user_nipsad action :
  message !! "action" = Some action →
  (py_eq_str action "delete" = true →
   ∀ annotation',
     _generate_annotation_event message socket annotation' user_nipsad
     = _generate_annotation_event message socket annotation user_nipsad)
  ∧ (py_eq_str action "delete" = false →
     ∀ annotation_dict,
       _generate_annotation_event (<["annotation_dict" := annotation_dict]> message)
         socket annotation user_nipsad
       = _generate_annotation_event message socket annotation user_nipsad).
Proof.
  intros Ha. split.
  - intros Hdel annotation'. unfold _generate_annotation_event, getitem.
    rewrite Ha; simpl. destruct (py_eq_str action "read"); [done|].
    destruct (message !! "src_client_id") as [src|]; simpl; [|done].
    destruct (py_eq_str src _); [done|].
    destruct (WebSocket.filter socket); [|done].
    destruct (message !! "annotation_id"); simpl; [|done].
    by rewrite Hdel.
  - intros Hdel d. unfold _generate_annotation_event, getitem.
    rewrite (lookup_insert_ne message "annotation_dict" "action") by discriminate.
    rewrite (lookup_insert_ne message "annotation_dict" "src_client_id")
      by discriminate.
    rewrite (lookup_insert_ne message "annotation_dict" "annotation_id")
      by discriminate.
    rewrite Ha; simpl. destruct (py_eq_str action "read"); [done|].
    destruct (message !! "src_client_id") as [src|]; simpl; [|done].
    destruct (py_eq_str src _); [done|].
    destruct (WebSocket.filter socket); [|done].
    destruct (message !! "annotation_id"); simpl; [|done].
    by rewrite Hdel.
Qed.

(** X6: errors before the loop over the sockets.  A payload without
    [annotation_id] raises [KeyError] before the store is asked; when the
    annotation is gone and the payload's [annotation_dict] is not a dict,
    the handler raises [AttributeError] after the fetch, before the nipsa
    look-up.  In both cases nothing is sent. *)
Theorem annotation_handler_early_errors message sockets session :
  (message !! "annotation_id" = None →
   handle_annotation_event message sockets session
   = ([], Raise (KeyError "annotation_id")))
  ∧ (∀ id_ v,
       message !! "annotation_id" = Some id_ →
       fetch_annotation session id_ = None →
       message !! "annotation_dict" = Some v →
       (∀ d, v ≠ VDict d) →
       handle_annotation_event message sockets session
       = ([EvFetch id_], Raise (AttributeError "get"))).
Proof.
  destruct (handle_annotation_event_early message sockets session) as [Hno Hraise].
  split; [done|].
  intros id_ v Hid Hfetch Hd Hv. apply Hraise; [done|].
  rewrite Hfetch. simpl. unfold dict_get. rewrite Hd. simpl.
  destruct v; try done. by destruct (Hv d).
Qed.

(** X7: an exception raised for one socket ends the handler: the sockets
    before it in the snapshot have been served, the sockets after it are
    sent nothing, and the exception leaves the handler. *)
Theorem failing_socket_stops_delivery message session id_ userid before socket
    after e :
  message !! "annotation_id" = Some id_ →
  resolved_userid message (fetch_annotation session id_) = Return userid →
  (∀ s, s ∈ before →
     ∃ reply,
       _generate_annotation_event message s (fetch_annotation session id_)
         (is_flagged session userid) = Return reply) →
  _generate_annotation_event message socket (fetch_annotation session id_)
    (is_flagged session userid) = Raise e →
  handle_annotation_event message (before ++ socket :: after) session
  = (EvFetch id_ :: EvIsFlagged userid
       :: replies (λ s, _generate_annotation_event message s
                          (fetch_annotation session id_)
                          (is_flagged session userid)) before,
     Raise e).
Proof.
  intros Hid Hu Hbefore Hraise.
  rewrite (handle_annotation_event_run _ _ _ id_ userid) by done.
  by rewrite (fan_out_abort _ before socket after e).
Qed.

(** A socket is always answered when the payload has its keys, a delete
    carries its snapshot and the read principals of the serialized document
    can be computed. *)
Lemma generate_annotation_event_returns message socket annotation user_nipsad :
  is_Some (message !! "action") →
  is_Some (message !! "src_client_id") →
  is_Some (message !! "annotation_id") →
  (∀ action, message !! "action" = Some action →
     py_eq_str action "delete" = true →
     is_Some (message !! "annotation_dict")) →
  (∀ serialized, serialized_for message socket annotation serialized →
     ∃ read_principals, read_principals_of serialized = Return read_principals) →
  ∃ reply,
    _generate_annotation_event message socket annotation user_nipsad
    = Return reply.
Proof.
  intros [action Ha] [src Hsrc] [id_ Hid] Hdict Hrp.
  assert (Hrest : ∀ serialized flt (kont : gmap string value),
    serialized_for message socket annotation serialized →
    ∃ reply,
    (userid ← attr_get serialized "user" VNone;
     if user_nipsad
        && negb (py_eq_optstr (WebSocket.authenticated_userid socket) userid)
     then Return None else
     permissions ← attr_get serialized "permissions" VNone;
     authorized ←
       _authorized_to_read (WebSocket.effective_principals socket) permissions;
     if negb authorized then Return None else
     if negb (filter_match flt serialized action) then Return None else
     Return (Some kont)) = Return reply).
  { intros serialized flt kont Hser.
    destruct (Hrp _ Hser) as [rp Hrp'].
    destruct (read_principals_of_dict _ _ Hrp') as [d ->]; simpl.
    destruct (user_nipsad && _); [eauto|].
    rewrite (authorized_to_read_principals (VDict d)) by done.
    rewrite Hrp'; simpl.
    case_bool_decide; simpl; [|eauto].
    destruct (filter_match flt (VDict d) action); simpl; eauto. }
  unfold _generate_annotation_event, getitem.
  rewrite Ha; simpl. destruct (py_eq_str action "read"); [eauto|].
  rewrite Hsrc; simpl. destruct (py_eq_str src _); [eauto|].
  destruct (WebSocket.filter socket) as [flt|]; [|eauto].
  rewrite Hid; simpl.
  destruct (py_eq_str action "delete") eqn:Hdel.
  - destruct (Hdict action Ha Hdel) as [sd Hsd]. rewrite Hsd; simpl.
    apply Hrest. by eapply serialized_snapshot.
  - destruct annotation as [a|]; simpl; [|eauto].
    exact (Hrest _ flt _ (serialized_live message socket (Some a) action a
                            Ha Hdel eq_refl)).
Qed.

(** X8: the handler returns normally, having fetched once, looked the
    author up once and then sent the replies in the order of the snapshot,
    when the payload has its keys, a delete carries its snapshot, and the
    read principals of every socket's serialized document can be
    computed. *)
Theorem annotation_handler_run message sockets session id_ userid :
  is_Some (message !! "action") →
  is_Some (message !! "src_client_id") →
  message !! "annotation_id" = Some id_ →
  resolved_userid message (fetch_annotation session id_) = Return userid →
  (∀ action, message !! "action" = Some action →
     py_eq_str action "delete" = true →
     is_Some (message !! "annotation_dict")) →
  (∀ socket serialized,
     socket ∈ sockets →
     serialized_for message socket (fetch_annotation session id_) serialized →
     ∃ read_principals, read_principals_of serialized = Return read_principals) →
  handle_annotation_event message sockets session
  = (EvFetch id_ :: EvIsFlagged userid
       :: replies (λ s, _generate_annotation_event message s
                          (fetch_annotation session id_)
                          (is_flagged session userid)) sockets,
     Return ()).
Proof.
  intros Ha Hsrc Hid Hu Hdict Hrp.
  rewrite (handle_annotation_event_run _ _ _ id_ userid) by done.
  rewrite fan_out_replies; [done|].
  intros socket Hin. apply generate_annotation_event_returns; eauto.
Qed.

(** X9: a user event without [userid] raises [KeyError] at the first
    socket, and does nothing on an empty snapshot. *)
Theorem user_event_without_userid message sockets session :
  message !! "userid" = None →
  handle_user_event message sockets session
  = ([], match sockets with
         | [] => Return ()
         | _ :: _ => Raise (KeyError "userid")
         end).
Proof.
  intros Hu. destruct sockets as [|s sockets]; [done|].
  change (handle_user_event message (s :: sockets) session)
    with (fan_out (_generate_user_event message) (s :: sockets)).
  rewrite fan_out_cons. unfold _generate_user_event, getitem. by rewrite Hu.
Qed.

(** The run of the user handler on a payload for which the sockets of the
    named user raise [KeyError]. *)
Lemma handle_user_event_incomplete message sockets session userid key :
  message !! "userid" = Some userid →
  (∀ s, py_eq_optstr (WebSocket.authenticated_userid s) userid = true →
        _generate_user_event message s = Raise (KeyError key)) →
  handle_user_event message sockets session
  = ([], if existsb (λ s, py_eq_optstr (WebSocket.authenticated_userid s) userid)
              sockets
         then Raise (KeyError key) else Return ()).
Proof.
  intros Hu Hkey.
  change (handle_user_event message sockets session)
    with (fan_out (_generate_user_event message) sockets).
  induction sockets as [|s sockets IH]; [done|].
  rewrite fan_out_cons. simpl.
  destruct (py_eq_optstr (WebSocket.authenticated_userid s) userid) eqn:Hs.
  - by rewrite Hkey.
  - unfold _generate_user_event at 1, getitem. rewrite Hu; simpl.
    rewrite Hs; simpl. apply IH.
Qed.

Lemma generate_user_event_no_model message socket userid :
  message !! "userid" = Some userid →
  is_Some (message !! "type") →
  message !! "session_model" = None →
  py_eq_optstr (WebSocket.authenticated_userid socket) userid = true →
  _generate_user_event message socket = Raise (KeyError "session_model").
Proof.
  intros Hu [type Ht] Hm Hs.
  unfold _generate_user_event, getitem. rewrite Hu; simpl.
  rewrite Hs; simpl. by rewrite Ht, Hm.
Qed.

(** X10: a user event that lacks [type] or [session_model] is never sent to
    anyone: it is skipped silently for the sockets of other users, and
    raises [KeyError] at the first socket of the user it names. *)
Theorem user_event_without_model message sockets session userid :
  message !! "userid" = Some userid →
  (message !! "type" = None →
   handle_user_event message sockets session
   = ([], if existsb (λ s, py_eq_optstr (WebSocket.authenticated_userid s) userid)
               sockets
          then Raise (KeyError "type") else Return ()))
  ∧ (is_Some (message !! "type") →
     message !! "session_model" = None →
     handle_user_event message sockets session
     = ([], if existsb (λ s, py_eq_optstr (WebSocket.authenticated_userid s) userid)
                 sockets
            then Raise (KeyError "session_model") else Return ())).
Proof.
  intros Hu. split.
  - intros Ht. apply handle_user_event_incomplete; [done|]. intros s Hs.
    unfold _generate_user_event, getitem. rewrite Hu; simpl.
    rewrite Hs; simpl. by rewrite Ht.
  - intros Ht Hm. apply handle_user_event_incomplete; [done|]. intros s Hs.
    by apply (generate_user_event_no_model _ _ userid).
Qed.

(** X11: the whole run of the user handler on a complete payload: the
    shaped message goes to the sockets of the named user, once per socket
    and in the order of the snapshot, nothing else happens, and the handler
    returns normally. *)
Theorem user_event_delivery_order message sockets session type userid
    session_model :
  message !! "type" = Some type →
  message !! "userid" = Some userid →
  message !! "session_model" = Some session_model →
  handle_user_event message sockets session
  = ((λ s, EvSendJson s {[ "type" := VStr "session-change";
                            "action" := type;
                            "model" := session_model ]})
       <$> filter (λ s, py_eq_optstr (WebSocket.authenticated_userid s) userid
                        = true) sockets,
     Return ()).
Proof.
  intros Ht Hu Hm.
  change (handle_user_event message sockets session)
    with (fan_out (_generate_user_event message) sockets).
  rewrite fan_out_replies.
  - f_equal.
    induction sockets as [|s sockets IH]; [done|].
    rewrite replies_cons, filter_cons.
    rewrite (generate_user_event_shape _ _ _ _ _ Ht Hu Hm).
    destruct (py_eq_optstr (WebSocket.authenticated_userid s) userid) eqn:Hs.
    + rewrite decide_True by done. rewrite fmap_cons. by rewrite IH.
    + rewrite decide_False by done. apply IH.
  - intros s _. rewrite (generate_user_event_shape _ _ _ _ _ Ht Hu Hm). eauto.
Qed.

(** X12: [_authorized_to_read] treats the effective principals as a set:
    its answer, or its error, depends only on which principals are listed,
    more principals never lose the authorization, and no principals are
    never authorized. *)
Theorem authorized_to_read_set permissions :
  (∀ principals principals',
     (∀ p, p ∈ principals ↔ p ∈ principals') →
     _authorized_to_read principals permissions
     = _authorized_to_read principals' permissions)
  ∧ (∀ principals principals',
       (∀ p, p ∈ principals → p ∈ principals') →
       _authorized_to_read principals permissions = Return true →
       _authorized_to_read principals' permissions = Return true)
  ∧ (∀ authorized,
       _authorized_to_read [] permissions = Return authorized →
       authorized = false).
Proof.
  unfold _authorized_to_read. split_and!.
  - intros ps qs Hsame.
    destruct (attr_get permissions "read" (VList [])) as [rl|]; simpl; [|done].
    destruct (translate_annotation_principals rl) as [rp|]; simpl; [|done].
    assert ((list_to_set ps : gset string) = list_to_set qs) as ->; [|done].
    apply set_eq. intros p. rewrite !elem_of_list_to_set. apply Hsame.
  - intros ps qs Hsub.
    destruct (attr_get permissions "read" (VList [])) as [rl|]; simpl; [|done].
    destruct (translate_annotation_principals rl) as [rp|]; simpl; [|done].
    destruct (decide (_ ∩ list_to_set ps = ∅)) as [|Hps]; [done|].
    intros _. rewrite decide_False; [done|].
    apply intersect_inter. apply intersect_inter in Hps as (p & ? & ?).
    exists p. auto.
  - intros authorized.
    destruct (attr_get permissions "read" (VList [])) as [rl|]; simpl; [|done].
    destruct (translate_annotation_principals rl) as [rp|]; simpl; [|done].
    rewrite decide_True by apply (right_absorb_L ∅ (∩)). congruence.
Qed.

End streamer_more.

(** * Further properties of the consumer *)

Lemma Consumer_run_state routing_key inbound quits w :
  (Consumer_run (_handler routing_key) inbound quits w).1 =
  let admitted := room (work_queue w) (length inbound) in
  {| work_queue :=
       {| maxsize := maxsize (work_queue w);
          items := items (work_queue w)
                   ++ ((λ payload, {| topic := routing_key; payload := payload |})
                         <$> take admitted inbound) |};
     warnings := warnings w
                 ++ replicate (length inbound - admitted) queue_full_warning |}%list.
Proof.
  revert w. induction inbound as [|p inbound IH]; intros [[size items] warns].
  - unfold room; simpl.
    destruct size as [n|]; simpl; rewrite ?Nat.min_0_r; simpl;
      by rewrite !app_nil_r.
  - simpl. unfold _handler, put; simpl.
    destruct size as [n|]; simpl.
    + destruct (decide (n ≤ length items)%nat) as [Hfull|Hroom]; simpl.
      * rewrite IH. unfold room; simpl.
        replace (n - length items)%nat with 0%nat by lia. simpl.
        rewrite !app_nil_r, <- app_assoc. simpl.
        by rewrite Nat.sub_0_r.
      * rewrite IH. unfold room; simpl.
        rewrite length_app; simpl.
        replace ((n - length items) `min` S (length inbound))%nat
          with (S ((n - (length items + 1)) `min` length inbound))%nat by lia.
        simpl. rewrite <- app_assoc. done.
    + rewrite IH. unfold room; simpl. rewrite <- app_assoc. done.
Qed.

(** X13: what [process_messages] leaves in the work queue and the log.
    The payloads are wrapped with the routing key as topic and appended in
    arrival order behind the messages already queued, as long as the queue
    has room; every later payload is dropped with one warning; so a bounded
    queue stays within its bound and no payload goes unaccounted for. *)
Theorem process_messages_queue bus settings routing_key w raise_error :
  let admitted := room (work_queue w) (length (inbound bus)) in
  let w' := (process_messages bus settings routing_key w raise_error).1 in
  items (work_queue w')
  = (items (work_queue w)
     ++ ((λ payload, {| topic := routing_key; payload := payload |})
           <$> take admitted (inbound bus)))%list
  ∧ warnings w'
    = (warnings w
       ++ replicate (length (inbound bus) - admitted) queue_full_warning)%list
  ∧ maxsize (work_queue w') = maxsize (work_queue w)
  ∧ (length (items (work_queue w')) - length (items (work_queue w))
     + (length (warnings w') - length (warnings w))
     = length (inbound bus))%nat
  ∧ (∀ size, maxsize (work_queue w) = Some size →
       (length (items (work_queue w)) ≤ size)%nat →
       (length (items (work_queue w')) ≤ size)%nat).
Proof.
  intros admitted w'.
  assert (Hw' : w' = (Consumer_run (_handler routing_key) (inbound bus)
                        (quits bus) w).1).
  { unfold w', process_messages.
    destruct (Consumer_run _ _ _ _) as [w0 [[]|e]]; [|done].
    by destruct raise_error. }
  rewrite Consumer_run_state in Hw'. fold admitted in Hw'.
  rewrite Hw'; simpl.
  assert (Hadm : (admitted ≤ length (inbound bus))%nat).
  { unfold admitted, room. destruct (maxsize (work_queue w)); lia. }
  split_and!; [done..| |].
  - rewrite !length_app, length_fmap, length_take, length_replicate. lia.
  - intros size Hsize Hbound.
    rewrite length_app, length_fmap, length_take.
    unfold admitted, room. rewrite Hsize. lia.
Qed.

(** X14: an error that ends the bus subscription leaves [process_messages]
    as it is, whatever [raise_error] and however full the queue is: a full
    queue is never the error. *)
Theorem process_messages_bus_error bus settings routing_key w raise_error e :
  quits bus = Raise e →
  (process_messages bus settings routing_key w raise_error).2 = Raise e.
Proof.
  intros Hquit. unfold process_messages.
  pose proof (Consumer_run_ends routing_key (inbound bus) (quits bus) w) as Hrun.
  destruct (Consumer_run _ _ _ _) as [w' [[]|e']]; simpl in *; congruence.
Qed.

(** * Properties of the group views *)

Section views_properties.
Local Open Scope list_scope.
Context {User : Type} `{EqDecision User}.
Context (get_by_userid : string → string → option User).
Context (user_groups : gmap string (views.Group User) → User
                       → list (views.Group User)).
Context (form_render : views.Form → string).
Context (form_validate :
           views.Form → list (string * string) → option (gmap string string)).
Context (Group_create :
           gmap string (views.Group User) → string → option User
           → string * views.Group User).

Local Abbreviation create_form := (views.create_form form_render).
Local Abbreviation create :=
  (views.create get_by_userid form_render form_validate Group_create).
Local Abbreviation read := (views.read get_by_userid user_groups).
Local Abbreviation join := (views.join get_by_userid).
Local Abbreviation leave := (views.leave get_by_userid).

Implicit Types (request : views.Request) (w : views.World User).
Implicit Types (group : views.Group User).

(** The data of a group notification. *)
Local Abbreviation notification event_type userid hashid :=
  ({[ "type" := VStr event_type;
      "userid" := views.userid_value userid;
      "group" := VStr hashid ]} : gmap string value).

Lemma Group_eta group :
  {| views.hashid := views.hashid group; views.slug := views.slug group;
     views.members := views.members group |} = group.
Proof. by destruct group. Qed.

Lemma World_eta w :
  {| views.groups := views.groups w; views.queue := views.queue w |} = w.
Proof. by destruct w. Qed.

(** [l.remove(x)] succeeds exactly when [x] is in the list, and then
    removes one occurrence of it: the first one. *)
Lemma list_remove_elem_of (x : option User) l :
  x ∈ l →
  ∃ before after,
    l = before ++ (x :: after) ∧ (x ∉ before)
    ∧ views.list_remove x l = Some (before ++ after).
Proof.
  induction l as [|y l IH]; [by intros ?%elem_of_nil|].
  intros Hin. simpl. destruct (decide (y = x)) as [->|Hne].
  - exists [], l. split_and!; [done| |done]. by intros ?%elem_of_nil.
  - apply elem_of_cons in Hin as [?|Hin]; [congruence|].
    destruct (IH Hin) as (before & after & -> & Hnot & ->).
    exists (y :: before), after. split_and!; [done| |done].
    intros [?|?]%elem_of_cons; [congruence|done].
Qed.

Lemma list_remove_appended (x : option User) l :
  x ∉ l → views.list_remove x (l ++ [x]) = Some l.
Proof.
  induction l as [|y l IH]; intros Hnot; simpl.
  - by rewrite decide_True.
  - rewrite decide_False by (intros ->; apply Hnot; left).
    rewrite IH; [done|]. intros Hin. apply Hnot. by right.
Qed.

(** X15: with the [groups] feature off, every view raises [HTTPNotFound]
    and changes nothing, whoever asks and whatever the request holds. *)
Theorem feature_gate request w :
  views.feature request "groups" = false →
  create_form request w = (w, views.Raises views.HTTPNotFound)
  ∧ create request w = (w, views.Raises views.HTTPNotFound)
  ∧ read request w = (w, views.Raises views.HTTPNotFound)
  ∧ join request w = (w, views.Raises views.HTTPNotFound)
  ∧ leave request w = (w, views.Raises views.HTTPNotFound).
Proof.
  intros Hoff.
  unfold views.create_form, views.create, views.read, views.join, views.leave.
  by rewrite Hoff.
Qed.

(** X16: without an authenticated user, the form, the creation, joining and
    leaving raise [HTTPNotFound] and change nothing. *)
Theorem authentication_gate request w :
  views.authenticated_userid request = None →
  create_form request w = (w, views.Raises views.HTTPNotFound)
  ∧ create request w = (w, views.Raises views.HTTPNotFound)
  ∧ join request w = (w, views.Raises views.HTTPNotFound)
  ∧ leave request w = (w, views.Raises views.HTTPNotFound).
Proof.
  intros Hanon.
  unfold views.create_form, views.create, views.join, views.leave.
  rewrite Hanon. by destruct (views.feature request "groups").
Qed.

Lemma read_state request w : (read request w).1 = w.
Proof.
  unfold views.read.
  destruct (views.feature request "groups"); simpl; [|done].
  destruct (views.matchdict request !! "hashid") as [h|]; [|done].
  unfold mbind, views.V_bind, views.get_by_hashid; simpl.
  destruct (views.groups w !! h) as [g|]; [|done].
  destruct (match views.matchdict request !! "slug" with
            | Some slug_ => bool_decide (slug_ ≠ views.slug g)
            | None => true
            end); [done|].
  destruct (views.logged_in _) as [userid|]; [|done].
  destruct (get_by_userid (views.domain request) userid) as [user|]; simpl;
    [|done].
  by destruct (bool_decide _).
Qed.

(** X17: reading a group's page changes nothing: no group is touched and
    nothing is published, whatever the outcome. *)
Theorem read_only request w :
  (read request w).1 = w.
Proof.
  unfold views.read.
  destruct (views.feature request "groups"); simpl; [|done].
  destruct (views.matchdict request !! "hashid") as [h|]; [|done].
  unfold mbind, views.V_bind, views.get_by_hashid; simpl.
  destruct (views.groups w !! h) as [g|]; [|done].
  destruct (match views.matchdict request !! "slug" with
            | Some slug_ => bool_decide (slug_ ≠ views.slug g)
            | None => true
            end); [done|].
  destruct (views.logged_in _) as [userid|]; [|done].
  destruct (get_by_userid (views.domain request) userid) as [user|]; simpl;
    [|done].
  by destruct (bool_decide _).
Qed.

(** X18: a request for a group under another slug than the group's, or
    under none, is redirected permanently to the group's own URL, logged in
    or not; a request for an unknown group raises [HTTPNotFound]. *)
Theorem read_redirects request w hashid_ :
  views.feature request "groups" = true →
  views.matchdict request !! "hashid" = Some hashid_ →
  (views.groups w !! hashid_ = None →
   read request w = (w, views.Raises views.HTTPNotFound))
  ∧ (∀ group,
       views.groups w !! hashid_ = Some group →
       views.matchdict request !! "slug" ≠ Some (views.slug group) →
       read request w
       = (w, views.Returns
               (views.HTTPMovedPermanently
                  (views.route_url "group_read" (views.hashid group)
                     (views.slug group))))).
Proof.
  intros Hon Hh. unfold views.read. rewrite Hon, Hh; simpl.
  unfold mbind, views.V_bind, views.get_by_hashid; simpl. split.
  - by intros ->.
  - intros group -> Hslug.
    destruct (views.matchdict request !! "slug") as [s|]; [|done].
    rewrite bool_decide_eq_true_2; [done|]. congruence.
Qed.

(** X19: the page shown under the group's own URL: the login page to a
    request without userid (or with an empty one), the share page to a user
    who has the group among their groups, the join page to any other
    registered user; a userid that is not registered raises
    [AttributeError]. *)
Theorem read_pages request w hashid_ group :
  views.feature request "groups" = true →
  views.matchdict request !! "hashid" = Some hashid_ →
  views.groups w !! hashid_ = Some group →
  views.matchdict request !! "slug" = Some (views.slug group) →
  (views.logged_in (views.authenticated_userid request) = None →
   read request w = (w, views.Returns (views._login_to_join request group)))
  ∧ (∀ userid,
       views.logged_in (views.authenticated_userid request) = Some userid →
       read request w =
       (w, match get_by_userid (views.domain request) userid with
           | None => views.Raises (views.AttributeError "groups")
           | Some user =>
             if bool_decide (group ∈ user_groups (views.groups w) user)
             then views.Returns (views._read_group request group)
             else views.Returns (views._join request group)
           end)).
Proof.
  intros Hon Hh Hg Hslug. unfold views.read. rewrite Hon, Hh; simpl.
  unfold mbind, views.V_bind, views.get_by_hashid; simpl.
  rewrite Hg, Hslug. rewrite bool_decide_eq_false_2 by (intros Hne; by apply Hne).
  split.
  - by intros ->.
  - intros userid ->.
    destruct (get_by_userid (views.domain request) userid) as [user|]; simpl;
      [|done].
    by destruct (bool_decide _).
Qed.

(** X20: leaving a group one is not a member of raises [HTTPNotFound] and
    changes nothing; a member is removed once (the first occurrence in the
    list of members), one [group-leave] notification is published, and the
    response is empty. *)
Theorem leave_group request w userid hashid_ group :
  views.feature request "groups" = true →
  views.authenticated_userid request = Some userid →
  views.matchdict request !! "hashid" = Some hashid_ →
  views.groups w !! hashid_ = Some group →
  (get_by_userid (views.domain request) userid ∉ views.members group →
   leave request w = (w, views.Raises views.HTTPNotFound))
  ∧ (get_by_userid (views.domain request) userid ∈ views.members group →
     ∃ before after,
       views.members group
       = before ++ (get_by_userid (views.domain request) userid :: after)
       ∧ (get_by_userid (views.domain request) userid ∉ before)
       ∧ leave request w
         = ({| views.groups :=
                 <[hashid_ := {| views.hashid := views.hashid group;
                                 views.slug := views.slug group;
                                 views.members := before ++ after |}]>
                   (views.groups w);
               views.queue :=
                 views.queue w
                 ++ [("user",
                      notification "group-leave" (Some userid)
                        (views.hashid group))] |},
            views.Returns views.HTTPNoContent)).
Proof.
  intros Hon Hu Hh Hg. unfold views.leave. rewrite Hon, Hu, Hh; simpl.
  unfold mbind, views.V_bind, views.get_by_hashid; simpl. rewrite Hg.
  split.
  - intros Hnot. by rewrite bool_decide_eq_true_2.
  - intros Hin. rewrite bool_decide_eq_false_2 by (intros Hn; by apply Hn).
    destruct (list_remove_elem_of _ _ Hin) as (before & after & Hm & Hnot & Hrm).
    exists before, after. split_and!; [done..|].
    rewrite Hrm. unfold views._send_group_notification. by rewrite Hu.
Qed.

(** X21: joining a group one is not a member of and leaving it again leaves
    the groups as they were; the queue has got a [group-join] and a
    [group-leave] notification, in this order. *)
Theorem join_then_leave request w userid hashid_ group :
  views.feature request "groups" = true →
  views.authenticated_userid request = Some userid →
  views.matchdict request !! "hashid" = Some hashid_ →
  views.groups w !! hashid_ = Some group →
  get_by_userid (views.domain request) userid ∉ views.members group →
  (join request w).2
  = views.Returns
      (views.HTTPSeeOther
         (views.route_url "group_read" (views.hashid group) (views.slug group)))
  ∧ leave request (join request w).1
    = ({| views.groups := views.groups w;
          views.queue :=
            views.queue w
            ++ [("user",
                 notification "group-join" (Some userid) (views.hashid group));
                ("user",
                 notification "group-leave" (Some userid) (views.hashid group))] |},
       views.Returns views.HTTPNoContent).
Proof.
  intros Hon Hu Hh Hg Hnot.
  assert (Hjoin : join request w
    = ({| views.groups :=
            <[hashid_ := {| views.hashid := views.hashid group;
                            views.slug := views.slug group;
                            views.members :=
                              views.members group
                              ++ [get_by_userid (views.domain request) userid] |}]>
              (views.groups w);
          views.queue :=
            views.queue w
            ++ [("user",
                 notification "group-join" (Some userid) (views.hashid group))] |},
       views.Returns
         (views.HTTPSeeOther
            (views.route_url "group_read" (views.hashid group)
               (views.slug group))))).
  { unfold views.join. rewrite Hon, Hu, Hh; simpl.
    unfold mbind, views.V_bind, views.get_by_hashid; simpl. rewrite Hg.
    unfold views._send_group_notification. by rewrite Hu. }
  rewrite Hjoin. split; [done|]. simpl.
  unfold views.leave. rewrite Hon, Hu, Hh; simpl.
  unfold mbind, views.V_bind, views.get_by_hashid; simpl.
  rewrite lookup_insert_eq; simpl.
  rewrite bool_decide_eq_false_2
    by (intros Hn; apply Hn, elem_of_app; right; left).
  rewrite list_remove_appended by done.
  simpl. unfold views._send_group_notification. rewrite Hu. simpl.
  rewrite insert_insert_eq, Group_eta. rewrite insert_id by done.
  by rewrite <- app_assoc.
Qed.

(** X22: what the views publish.  The form and the page publish nothing;
    creating, joining and leaving publish at most one message, on the topic
    [user], whose data are the event type, the userid of the request and
    the group's hashid, and nothing else: there is no [session_model]. *)
Theorem published_notifications request w :
  views.queue (create_form request w).1 = views.queue w
  ∧ views.queue (read request w).1 = views.queue w
  ∧ (∀ view, view = create ∨ view = join ∨ view = leave →
       views.queue (view request w).1 = views.queue w
       ∨ ∃ event_type hashid_ data,
           views.queue (view request w).1
           = views.queue w ++ [("user", data)]
           ∧ data = notification event_type
                      (views.authenticated_userid request) hashid_
           ∧ data !! "session_model" = None).
Proof.
  split_and!.
  - unfold views.create_form.
    destruct (views.feature request "groups"); simpl; [|done].
    by destruct (views.authenticated_userid request).
  - by rewrite read_state.
  - intros view [-> | [-> | ->]].
    + unfold views.create.
      destruct (views.feature request "groups"); simpl; [|by left].
      destruct (views.authenticated_userid request) as [userid|] eqn:Hu;
        [|by left].
      destruct (form_validate _ _) as [appstruct|]; [|by left].
      destruct (appstruct !! "name") as [name|]; [|by left].
      unfold mbind, views.V_bind, views.add_group; simpl.
      destruct (Group_create _ _ _) as [key group]; simpl.
      right. eexists "group-join", (views.hashid group), _.
      unfold views._send_group_notification; simpl. rewrite Hu.
      split_and!; done.
    + unfold views.join.
      destruct (views.feature request "groups"); simpl; [|by left].
      destruct (views.authenticated_userid request) as [userid|] eqn:Hu;
        [|by left].
      destruct (views.matchdict request !! "hashid") as [h|]; [|by left].
      unfold mbind, views.V_bind, views.get_by_hashid; simpl.
      destruct (views.groups w !! h) as [g|]; [|by left]. simpl.
      right. eexists "group-join", (views.hashid g), _.
      unfold views._send_group_notification; simpl. rewrite Hu.
      split_and!; done.
    + unfold views.leave.
      destruct (views.feature request "groups"); simpl; [|by left].
      destruct (views.authenticated_userid request) as [userid|] eqn:Hu;
        [|by left].
      destruct (views.matchdict request !! "hashid") as [h|]; [|by left].
      unfold mbind, views.V_bind, views.get_by_hashid; simpl.
      destruct (views.groups w !! h) as [g|]; [|by left]. simpl.
      destruct (bool_decide _); [by left|].
      destruct (views.list_remove _ _) as [l|]; [|by left]. simpl.
      right. eexists "group-leave", (views.hashid g), _.
      unfold views._send_group_notification; simpl. rewrite Hu.
      split_and!; done.
Qed.

End views_properties.

(** * From the group views to the streamer *)

Section views_to_streamer.
Context {C : Collaborators} {User : Type}.
Local Open Scope list_scope.

(** X23: a group notification as the views publish it, once dispatched by
    the streamer on the topic [user], is never delivered to anyone: it
    passes silently by the sockets of other users, and at the first socket
    of the user who joined or left the dispatch raises [KeyError], since
    the published data have no [session_model]. *)
Theorem group_notification_in_streamer (request : views.Request)
    (event_type hashid_ : string) (w : views.World User)
    (instances : list WebSocket.t) (session : Session)
    (topic_handlers :
       gmap string (gmap string value → list WebSocket.t → Session → M unit)) :
  topic_handlers !! "user" = Some handle_user_event →
  ∃ data,
    views.queue (views._send_group_notification request event_type hashid_ w).1
    = views.queue w ++ [("user", data)]
    ∧ handle_message instances {| topic := "user"; payload := data |} session
        topic_handlers
      = ([], if existsb
                  (λ s, py_eq_optstr (WebSocket.authenticated_userid s)
                          (views.userid_value
                             (views.authenticated_userid request)))
                  instances
             then Raise (KeyError "session_model") else Return ()).
Proof.
  intros Hhandler. eexists. split; [done|].
  unfold handle_message; simpl. rewrite Hhandler.
  unfold mbind, M_bind, lift; simpl.
  rewrite (handle_user_event_incomplete _ _ _
             (views.userid_value (views.authenticated_userid request))
             "session_model"); [done..|].
  intros s Hs. by eapply generate_user_event_no_model.
Qed.

End views_to_streamer.

(** * The further properties on the concrete deployment *)

Lemma read_events_suppressed_witness :
  handle_annotation_event (Demo.annotation_event "read" "A1")
    [Demo.C1; Demo.C4] Demo.session
  = ([EvFetch (VStr "A1"); EvIsFlagged (VStr "U1")], Return ()).
Proof.
  refine (proj2 (proj2 (read_events_suppressed (C:=Demo.collaborators)
                          (Demo.annotation_event "read" "A1") _))
            [Demo.C1; Demo.C4] Demo.session (VStr "A1") (VStr "U1") _ _);
    reflexivity.
Defined.

Lemma self_echo_suppressed_witness :
  ∃ annotation,
    _generate_annotation_event Demo.create_A1 Demo.C9 annotation false
    = Return None.
Proof.
  exists (Some Demo.A1).
  refine (proj1 (self_echo_suppressed (C:=Demo.collaborators)
                   Demo.create_A1 Demo.C9 _) _ (Some Demo.A1) false).
  - reflexivity.
  - eexists. reflexivity.
Defined.

Lemma gone_annotation_suppressed_witness :
  handle_annotation_event (Demo.annotation_event "update" "A1")
    [Demo.C1; Demo.C4] Demo.session_deleted
  = ([EvFetch (VStr "A1"); EvIsFlagged VNone], Return ()).
Proof.
  refine (proj2 (gone_annotation_suppressed (C:=Demo.collaborators)
                   (Demo.annotation_event "update" "A1")
                   [Demo.C1; Demo.C4] Demo.session_deleted
                   (VStr "update") (VStr "A1") _ _ _ _) _ ∅ _).
  - reflexivity.
  - reflexivity.
  - reflexivity.
  - reflexivity.
  - eexists. reflexivity.
  - reflexivity.
Defined.

Lemma filter_mismatch_suppressed_witness :
  ¬ ∃ reply,
      EvSendJson Demo.C6 reply
        ∈ (handle_annotation_event Demo.create_A1 [Demo.C1; Demo.C6]
             Demo.session).1.
Proof.
  intros [reply Hin]. revert Hin.
  refine (proj2 (filter_mismatch_suppressed (C:=Demo.collaborators)
                   Demo.create_A1 Demo.C6 (Some Demo.A1) Demo.reject_all
                   (VStr "create") _ _ _ _ _)
            [Demo.C1; Demo.C6] Demo.session (VStr "A1") reply _ _).
  - reflexivity.
  - reflexivity.
  - eapply serialized_live; reflexivity.
  - reflexivity.
  - reflexivity.
  - reflexivity.
Defined.

Lemma payload_source_witness :
  (∀ annotation',
     _generate_annotation_event Demo.delete_A1 Demo.C1 annotation' false
     = _generate_annotation_event Demo.delete_A1 Demo.C1 None false)
  ∧ ∀ annotation_dict,
      _generate_annotation_event
        (<["annotation_dict" := annotation_dict]> Demo.create_A1) Demo.C1
        (Some Demo.A1) false
      = _generate_annotation_event Demo.create_A1 Demo.C1 (Some Demo.A1) false.
Proof.
  split.
  - refine (proj1 (payload_source (C:=Demo.collaborators) Demo.delete_A1
                     Demo.C1 None false (VStr "delete") _) _); reflexivity.
  - refine (proj2 (payload_source (C:=Demo.collaborators) Demo.create_A1
                     Demo.C1 (Some Demo.A1) false (VStr "create") _) _);
      reflexivity.
Defined.

Lemma annotation_handler_early_errors_witness :
  handle_annotation_event ∅ [Demo.C1] Demo.session
  = ([], Raise (KeyError "annotation_id")).
Proof.
  apply (proj1 (annotation_handler_early_errors (C:=Demo.collaborators)
                  ∅ [Demo.C1] Demo.session)).
  reflexivity.
Defined.

Lemma failing_socket_stops_delivery_witness :
  handle_annotation_event Demo.create_A2 [Demo.C3; Demo.C1; Demo.C4]
    Demo.session
  = ([EvFetch (VStr "A2"); EvIsFlagged (VStr "U1")],
     Raise (AttributeError "get")).
Proof.
  refine (failing_socket_stops_delivery (C:=Demo.collaborators)
            Demo.create_A2 Demo.session (VStr "A2") (VStr "U1")
            [Demo.C3] Demo.C1 [Demo.C4] (AttributeError "get") _ _ _ _).
  - reflexivity.
  - reflexivity.
  - intros s Hs. apply list_elem_of_singleton in Hs. subst s.
    eexists. reflexivity.
  - reflexivity.
Defined.

Lemma annotation_handler_run_witness :
  handle_annotation_event Demo.delete_A1 [Demo.C1; Demo.C9] Demo.session_deleted
  = ([EvFetch (VStr "A1"); EvIsFlagged (VStr "U1");
      EvSendJson Demo.C1
        (annotation_notification (VStr "delete")
           (VDict {[ "id" := VStr "A1" ]}))],
     Return ()).
Proof.
  refine (annotation_handler_run (C:=Demo.collaborators) Demo.delete_A1
            [Demo.C1; Demo.C9] Demo.session_deleted (VStr "A1") (VStr "U1")
            _ _ _ _ _ _).
  - eexists. reflexivity.
  - eexists. reflexivity.
  - reflexivity.
  - reflexivity.
  - intros action _ _. eexists. reflexivity.
  - intros socket serialized _ Hser.
    destruct Hser as [action sd Ha Hd Hs | action a Ha Hd Hann].
    + injection Hs as <-. eexists. reflexivity.
    + discriminate Hann.
Defined.

Lemma user_event_without_userid_witness :
  handle_user_event (C:=Demo.collaborators) ∅ [Demo.C1; Demo.C4] Demo.session
  = ([], Raise (KeyError "userid")).
Proof.
  apply (user_event_without_userid (C:=Demo.collaborators) ∅
           [Demo.C1; Demo.C4] Demo.session).
  reflexivity.
Defined.

Lemma user_event_without_model_witness :
  handle_user_event (C:=Demo.collaborators) Demo.group_notification
    [Demo.C1; Demo.C5] Demo.session = ([], Return ())
  ∧ handle_user_event (C:=Demo.collaborators) Demo.group_notification
      [Demo.C1; Demo.C4; Demo.C5] Demo.session
    = ([], Raise (KeyError "session_model")).
Proof.
  split.
  - refine (proj2 (user_event_without_model (C:=Demo.collaborators)
                     Demo.group_notification [Demo.C1; Demo.C5] Demo.session
                     (VStr "U1") _) _ _).
    + reflexivity.
    + eexists. reflexivity.
    + reflexivity.
  - refine (proj2 (user_event_without_model (C:=Demo.collaborators)
                     Demo.group_notification [Demo.C1; Demo.C4; Demo.C5]
                     Demo.session (VStr "U1") _) _ _).
    + reflexivity.
    + eexists. reflexivity.
    + reflexivity.
Defined.

Lemma user_event_delivery_order_witness :
  handle_user_event (C:=Demo.collaborators) (Demo.user_event (VStr "U1"))
    [Demo.C4; Demo.C1; Demo.C4] Demo.session
  = ([EvSendJson Demo.C4
        (session_change (VStr "session-change")
           (VDict {[ "groups" := VList [] ]}));
      EvSendJson Demo.C4
        (session_change (VStr "session-change")
           (VDict {[ "groups" := VList [] ]}))],
     Return ()).
Proof.
  refine (user_event_delivery_order (C:=Demo.collaborators)
            (Demo.user_event (VStr "U1")) [Demo.C4; Demo.C1; Demo.C4]
            Demo.session (VStr "session-change") (VStr "U1")
            (VDict {[ "groups" := VList [] ]}) _ _ _); reflexivity.
Defined.

Lemma process_messages_bus_error_witness :
  (process_messages Demo.broken_bus ∅ "annotation" Demo.idle false).2
  = Raise (Exception "connection lost").
Proof.
  apply (process_messages_bus_error Demo.broken_bus ∅ "annotation" Demo.idle
           false (Exception "connection lost")).
  reflexivity.
Defined.

(** ** The group views on the concrete group service *)

Lemma feature_gate_witness :
  views.leave GroupsDemo.get_by_userid
    (GroupsDemo.request false (Some "U2") GroupsDemo.page []) GroupsDemo.world
  = (GroupsDemo.world, views.Raises views.HTTPNotFound).
Proof.
  refine (proj2 (proj2 (proj2 (proj2
    (feature_gate GroupsDemo.get_by_userid GroupsDemo.user_groups
       GroupsDemo.form_render
       GroupsDemo.form_validate GroupsDemo.Group_create
       (GroupsDemo.request false (Some "U2") GroupsDemo.page [])
       GroupsDemo.world _))))).
  reflexivity.
Defined.

Lemma authentication_gate_witness :
  views.join GroupsDemo.get_by_userid
    (GroupsDemo.request true None GroupsDemo.page []) GroupsDemo.world
  = (GroupsDemo.world, views.Raises views.HTTPNotFound).
Proof.
  refine (proj1 (proj2 (proj2
    (authentication_gate GroupsDemo.get_by_userid GroupsDemo.form_render
       GroupsDemo.form_validate GroupsDemo.Group_create
       (GroupsDemo.request true None GroupsDemo.page [])
       GroupsDemo.world _)))).
  reflexivity.
Defined.

Lemma read_redirects_witness :
  views.read GroupsDemo.get_by_userid GroupsDemo.user_groups
    (GroupsDemo.request true None {[ "hashid" := "h-readers" ]} [])
    GroupsDemo.world
  = (GroupsDemo.world,
     views.Returns
       (views.HTTPMovedPermanently
          (views.route_url "group_read" "h-readers" "readers"))).
Proof.
  refine (proj2 (read_redirects GroupsDemo.get_by_userid GroupsDemo.user_groups
                   (GroupsDemo.request true None {[ "hashid" := "h-readers" ]} [])
                   GroupsDemo.world "h-readers" _ _)
            GroupsDemo.readers _ _).
  - reflexivity.
  - reflexivity.
  - reflexivity.
  - discriminate.
Defined.

Lemma read_pages_witness :
  views.read GroupsDemo.get_by_userid GroupsDemo.user_groups
    (GroupsDemo.request true (Some "U2") GroupsDemo.page []) GroupsDemo.world
  = (GroupsDemo.world,
     views.Returns
       (views._read_group
          (GroupsDemo.request true (Some "U2") GroupsDemo.page [])
          GroupsDemo.readers))
  ∧ views.read GroupsDemo.get_by_userid GroupsDemo.user_groups
      (GroupsDemo.request true (Some "U9") GroupsDemo.page []) GroupsDemo.world
    = (GroupsDemo.world, views.Raises (views.AttributeError "groups")).
Proof.
  split.
  - refine (proj2 (read_pages GroupsDemo.get_by_userid GroupsDemo.user_groups
                     (GroupsDemo.request true (Some "U2") GroupsDemo.page [])
                     GroupsDemo.world "h-readers" GroupsDemo.readers _ _ _ _)
              "U2" _); reflexivity.
  - refine (proj2 (read_pages GroupsDemo.get_by_userid GroupsDemo.user_groups
                     (GroupsDemo.request true (Some "U9") GroupsDemo.page [])
                     GroupsDemo.world "h-readers" GroupsDemo.readers _ _ _ _)
              "U9" _); reflexivity.
Defined.

Lemma leave_group_witness :
  views.leave GroupsDemo.get_by_userid
    (GroupsDemo.request true (Some "U1") GroupsDemo.page []) GroupsDemo.world
  = (GroupsDemo.world, views.Raises views.HTTPNotFound).
Proof.
  refine (proj1 (leave_group GroupsDemo.get_by_userid
                   (GroupsDemo.request true (Some "U1") GroupsDemo.page [])
                   GroupsDemo.world "U1" "h-readers" GroupsDemo.readers
                   _ _ _ _) _).
  - reflexivity.
  - reflexivity.
  - reflexivity.
  - reflexivity.
  - apply (bool_decide_eq_false_1 (_ ∈ _)). vm_compute. reflexivity.
Defined.

Lemma join_then_leave_witness :
  views.leave GroupsDemo.get_by_userid
    (GroupsDemo.request true (Some "U1") GroupsDemo.page [])
    (views.join GroupsDemo.get_by_userid
       (GroupsDemo.request true (Some "U1") GroupsDemo.page [])
       GroupsDemo.world).1
  = ({| views.groups := views.groups GroupsDemo.world;
        views.queue :=
          [("user", {[ "type" := VStr "group-join"; "userid" := VStr "U1";
                       "group" := VStr "h-readers" ]});
           ("user", {[ "type" := VStr "group-leave"; "userid" := VStr "U1";
                       "group" := VStr "h-readers" ]})] |},
     views.Returns views.HTTPNoContent).
Proof.
  refine (proj2 (join_then_leave GroupsDemo.get_by_userid
                   (GroupsDemo.request true (Some "U1") GroupsDemo.page [])
                   GroupsDemo.world "U1" "h-readers" GroupsDemo.readers
                   _ _ _ _ _)).
  - reflexivity.
  - reflexivity.
  - reflexivity.
  - reflexivity.
  - apply (bool_decide_eq_false_1 (_ ∈ _)). vm_compute. reflexivity.
Defined.

Lemma group_notification_in_streamer_witness :
  ∃ data,
    views.queue
      (views._send_group_notification
         (GroupsDemo.request true (Some "U1") GroupsDemo.page [])
         "group-join" "h-readers" GroupsDemo.world).1
    = [("user", data)]
    ∧ handle_message [Demo.C1; Demo.C4]
        {| topic := "user"; payload := data |} Demo.session
        Demo.topic_handlers
      = ([], Raise (KeyError "session_model")).
Proof.
  apply (group_notification_in_streamer (C:=Demo.collaborators)
           (GroupsDemo.request true (Some "U1") GroupsDemo.page [])
           "group-join" "h-readers" GroupsDemo.world [Demo.C1; Demo.C4]
           Demo.session Demo.topic_handlers).
  reflexivity.
Defined.
